(** * SpotifyLinkDownloader: a shallow embedding of [bot.py]

    The bot is one flat script: [run_spotdl] (a helper that shells out to
    the downloader and scans a directory), [handle_message] (incoming
    text) and [button_handler] (inline-keyboard callbacks), all three
    working on the module-level dictionary [pending_downloads].

    Modelling decisions, once and for all:
    - a Python [str] is its list of Unicode code points ([list N]), so
      that [strip], [startswith], [endswith], [split] and [in] are the
      functions Python runs, not byte-level stand-ins;
    - the handlers live in a state-and-exception monad [io]: the state
      holds [pending_downloads] and the directories on disk, every call
      to the outside (Telegram request, subprocess) is logged as an
      [event] in the order it is issued, and a raised exception keeps
      the state and the events reached so far, as in Python;
    - what the outside answers is a parameter, the [world]: the result
      of the downloader process and the directory contents it leaves,
      and, for the calls the script guards with [try], whether they
      raise.  Exceptions are modelled where the script itself provides
      for them (the [BadRequest] handling of [safe_edit_text], the
      [try]/[except]/[finally] around sending) and for [subprocess.run],
      which raises [TimeoutExpired], [UnicodeDecodeError] on captured
      output that is no text, and whatever starting the process raises;
      [run_spotdl] catches the first only.  The bot's own file-system
      calls ([rmtree], [makedirs], [open], [ZipFile.write]),
      [query.answer] and [reply_text] are taken to return normally; for
      [makedirs] that means a non-empty [download_dir];
    - a handler runs to its end without another one in between: the
      hand-off of [run_spotdl] to an executor thread is a plain call,
      and what other updates do to [pending_downloads] while a handler
      awaits is not modelled;
    - logging is not modelled; paths are POSIX paths;
    - [main] is the dispatch of an update to the first handler that
      matches it and the loop over the updates that arrive; how the
      library tells a command from other text is not modelled, an
      update comes classified (command, text, button press, and the
      edited forms of the first two). *)

From Stdlib Require Import ZArith NArith Ascii String DecimalString.
From stdpp Require Import gmap list strings.

Open Scope Z_scope.

(** ** Python strings *)

Abbreviation str := (list N).

(** An ASCII literal of the script as code points. *)
Definition py (s : string) : str :=
  N_of_ascii <$> list_ascii_of_string s.

(** [s.startswith(prefix)] *)
Fixpoint startswith (s prefix : str) {struct prefix} : bool :=
  match prefix, s with
  | [], _ => true
  | _ :: _, [] => false
  | p :: prefix', c :: s' => (c =? p)%N && startswith s' prefix'
  end.

(** [s.endswith(suffix)] *)
Definition endswith (s suffix : str) : bool :=
  startswith (reverse s) (reverse suffix).

(** [sub in s] on strings: substring search. *)
Fixpoint contains (sub s : str) : bool :=
  startswith s sub ||
  match s with
  | [] => false
  | _ :: s' => contains sub s'
  end.

(** [a == b] on strings. *)
Definition str_eqb (a b : str) : bool := bool_decide (a = b).

(** [c.isspace()]: the code points CPython's [str.strip()] removes. *)
Definition isspace (c : N) : bool :=
  ((9 <=? c) && (c <=? 13) || (28 <=? c) && (c <=? 32) ||
   (c =? 0x85) || (c =? 0xa0) || (c =? 0x1680) ||
   (0x2000 <=? c) && (c <=? 0x200a) ||
   (c =? 0x2028) || (c =? 0x2029) || (c =? 0x202f) ||
   (c =? 0x205f) || (c =? 0x3000))%N.

Fixpoint lstrip (s : str) : str :=
  match s with
  | [] => []
  | c :: s' => if isspace c then lstrip s' else s
  end.

Definition rstrip (s : str) : str := reverse (lstrip (reverse s)).

(** [s.strip()] *)
Definition strip (s : str) : str := rstrip (lstrip s).

(** [s.split(sep, 1)] for a non-empty separator: cut at the first
    occurrence of [sep], or the whole string alone when there is none. *)
Fixpoint split1 (sep s : str) : list str :=
  if startswith s sep then [[]; drop (length sep) s]
  else match s with
       | [] => [[]]
       | c :: s' =>
           match split1 sep s' with
           | [] => [[c]]
           | a :: rest => (c :: a) :: rest
           end
       end.

(** [s.upper()]; the script applies it to members of
    [SUPPORTED_FORMATS] only, where upper-casing is the ASCII one. *)
Definition upper (s : str) : str :=
  (fun c => if (97 <=? c) && (c <=? 122) then c - 32 else c)%N <$> s.

(** [str(n)] for a length. *)
Definition str_of_nat (n : nat) : str :=
  py (NilEmpty.string_of_uint (Nat.to_uint n)).

(** [os.path.join(a, b)] of [posixpath]. *)
Definition join (a b : str) : str :=
  if startswith b (py "/") then b
  else if str_eqb a [] || endswith a (py "/") then a ++ b
  else a ++ py "/" ++ b.

(** ** Directories and [os.walk] *)

(** A directory as [os.walk] sees it: the names of its non-directory
    entries and its sub-directories, each in [scandir] order. *)
#[warnings="-register-all"]
Inductive dir : Type :=
  | Directory (files : list str) (subdirs : list (str * dir)).

Definition dir_files (d : dir) : list str :=
  match d with Directory files _ => files end.

Definition dir_subdirs (d : dir) : list (str * dir) :=
  match d with Directory _ subdirs => subdirs end.

(** [os.walk(top)] (top-down): the triples [(root, dirs, files)]. *)
Fixpoint walk (top : str) (d : dir) : list (str * list str * list str) :=
  match d with
  | Directory files subdirs =>
      (top, subdirs.*1, files) ::
      flat_map (fun e => walk (join top e.1) e.2) subdirs
  end.

(** ** The state, the outside world and the [io] monad *)

(** The value stored per user: [{"url": message}]. *)
Record pending : Type := { url : str }.

Record state : Type := {
  pending_downloads : gmap Z pending;
  fs : gmap str dir
}.

Inductive exn : Type :=
  | BadRequest (message : str)
  | NetworkError (message : str)
  | CancelledError
  | TimeoutExpired
  | IndexError
  | KeyError
  | FileNotFoundError
  | UnicodeDecodeError
  | AttributeError.

(** [isinstance(e, Exception)]: [CancelledError] derives from
    [BaseException] only. *)
Definition is_Exception (e : exn) : bool :=
  match e with
  | CancelledError => false
  | _ => true
  end.

(** An [InlineKeyboardButton(text, callback_data=...)]. *)
Record button : Type := { button_text : str; callback_data : str }.

Inductive event : Type :=
  | Answer (text : option str) (show_alert : option bool)
  | EditMessageText (text : str) (parse_mode : option str)
  | ReplyText (text : str) (reply_markup : option (list (list button)))
      (parse_mode : option str)
  | ReplyDocument (filename : str) (archive : list (str * str))
      (caption : str) (parse_mode : option str)
  | ReplyAudio (audio : str) (caption : str) (parse_mode : option str)
  | SubprocessRun (command : list str) (timeout : Z).

(** How [subprocess.run(..., capture_output=True, text=True,
    timeout=300)] ends: the timeout runs out; the process exits and its
    output is text; the process exits and its captured output does not
    decode; or the process is not started at all and [Popen] raises
    (the program is missing, say). *)
Inductive process : Type :=
  | Expired
  | Completed (returncode : Z) (stderr : str)
  | Undecodable (returncode : Z)
  | NotStarted (e : exn).

Record world : Type := {
  (** the downloader: from the command and the disk, how it ends and
      the disk it leaves *)
  spawn : list str → gmap str dir → process * gmap str dir;
  (** [None]: the request is accepted; [Some e]: it raises [e] *)
  edit_message_text : str → option str → option exn;
  send_document :
    str → list (str * str) → str → option str → option exn;
  send_audio : str → str → option str → option exn;
  (** [os.path.relpath], which depends on the working directory *)
  relpath : str → str → str
}.

Inductive result (A : Type) : Type :=
  | Return (a : A)
  | Raise (e : exn).
Arguments Return {A} a.
Arguments Raise {A} e.

Definition io (A : Type) : Type := state → result A * state * list event.

Definition io_ret {A} (a : A) : io A := fun st => (Return a, st, []).

Definition io_bind {A B} (m : io A) (k : A → io B) : io B :=
  fun st =>
    match m st with
    | (Return a, st1, ev1) =>
        match k a st1 with
        | (r, st2, ev2) => (r, st2, ev1 ++ ev2)
        end
    | (Raise e, st1, ev1) => (Raise e, st1, ev1)
    end.

Notation "x <- m ;; k" := (io_bind m (fun x => k))
  (at level 100, m at next level, right associativity, only parsing).
Notation "m ;;; k" := (io_bind m (fun _ => k))
  (at level 100, right associativity, only parsing).

Definition raise {A} (e : exn) : io A := fun st => (Raise e, st, []).

Definition emit (e : event) : io unit := fun st => (Return tt, st, [e]).

(** An outside call that may raise: logged, then its answer. *)
Definition request (e : event) (answer : option exn) : io unit :=
  fun st =>
    match answer with
    | None => (Return tt, st, [e])
    | Some x => (Raise x, st, [e])
    end.

(** [try: body  except ...] with the handler as a [match] on what the
    body did: the exception, if any, is handed over as a value. *)
Definition attempt {A} (body : io A) : io (result A) :=
  fun st =>
    match body st with
    | (r, st1, ev1) => (Return r, st1, ev1)
    end.

(** [try: body  except Exception as e: handler(e)] *)
Definition try_except {A} (body : io A) (handler : exn → io A) : io A :=
  fun st =>
    match body st with
    | (Raise e, st1, ev1) =>
        if is_Exception e then
          match handler e st1 with
          | (r, st2, ev2) => (r, st2, ev1 ++ ev2)
          end
        else (Raise e, st1, ev1)
    | returned => returned
    end.

(** [try: body  finally: final] *)
Definition try_finally {A} (body : io A) (final : io unit) : io A :=
  fun st =>
    match body st with
    | (r, st1, ev1) =>
        match final st1 with
        | (Return _, st2, ev2) => (r, st2, ev1 ++ ev2)
        | (Raise e, st2, ev2) => (Raise e, st2, ev1 ++ ev2)
        end
    end.

(** [os.path.exists(path)] *)
Definition path_exists (path : str) : io bool :=
  fun st => (Return (bool_decide (is_Some (fs st !! path))), st, []).

(** [shutil.rmtree(path)] *)
Definition rmtree (path : str) : io unit :=
  fun st =>
    (Return tt,
     {| pending_downloads := pending_downloads st;
        fs := delete path (fs st) |}, []).

(** [os.makedirs(path, exist_ok=True)], for a path that can be created:
    a non-empty one (the script passes ["downloads"]; on the empty path
    [os.makedirs] raises). *)
Definition makedirs (path : str) : io unit :=
  fun st =>
    (Return tt,
     {| pending_downloads := pending_downloads st;
        fs := match fs st !! path with
              | Some _ => fs st
              | None => <[path := Directory [] []]> (fs st)
              end |}, []).

(** [subprocess.run(command, capture_output=True, text=True,
    timeout=...)]: returns the completed process [(returncode, stderr)],
    or raises [TimeoutExpired], [UnicodeDecodeError] when the captured
    output is no text, or what [Popen] raised. *)
Definition subprocess_run (w : world) (command : list str) (timeout : Z)
  : io (Z * str) :=
  fun st =>
    match spawn w command (fs st) with
    | (Expired, disk) =>
        (Raise TimeoutExpired,
         {| pending_downloads := pending_downloads st; fs := disk |},
         [SubprocessRun command timeout])
    | (Completed returncode stderr, disk) =>
        (Return (returncode, stderr),
         {| pending_downloads := pending_downloads st; fs := disk |},
         [SubprocessRun command timeout])
    | (Undecodable _, disk) =>
        (Raise UnicodeDecodeError,
         {| pending_downloads := pending_downloads st; fs := disk |},
         [SubprocessRun command timeout])
    | (NotStarted e, disk) =>
        (Raise e,
         {| pending_downloads := pending_downloads st; fs := disk |},
         [SubprocessRun command timeout])
    end.

(** [list(os.walk(path))]; a missing directory yields nothing. *)
Definition os_walk (path : str) : io (list (str * list str * list str)) :=
  fun st =>
    (Return match fs st !! path with
            | Some d => walk path d
            | None => []
            end, st, []).

(** ** [run_spotdl] *)

(** The two nested [for] loops that collect the downloaded files. *)
Definition collect (audio_format : str)
    (walked : list (str * list str * list str)) : list str :=
  flat_map (fun '(root, _, files) =>
              join root <$>
                filter (fun file =>
                          endswith file (py "." ++ audio_format) = true)
                       files)
           walked.

Definition run_spotdl (w : world) (url audio_format download_dir : str)
  : io (list str) :=
  present <- path_exists download_dir ;;
  (if present then rmtree download_dir else io_ret tt) ;;;
  makedirs download_dir ;;;
  let command :=
    [py "spotdl"; url;
     py "--output"; download_dir;
     py "--overwrite"; py "skip";
     py "--format"; audio_format] in
  ran <- attempt (subprocess_run w command 300) ;;
  match ran with
  | Raise TimeoutExpired => io_ret []
  | Raise e => raise e
  | Return (returncode, _) =>
      if negb (returncode =? 0) then io_ret []
      else
        walked <- os_walk download_dir ;;
        io_ret (collect audio_format walked)
  end.

(** ** The handlers *)

Definition SUPPORTED_FORMATS : list str :=
  [py "mp3"; py "m4a"; py "flac"; py "opus"].

(** [user_id in pending_downloads] *)
Definition is_pending (user_id : Z) : io bool :=
  fun st =>
    (Return (bool_decide (is_Some (pending_downloads st !! user_id))), st, []).

(** [pending_downloads[user_id]["url"]] *)
Definition pending_url (user_id : Z) : io str :=
  fun st =>
    match pending_downloads st !! user_id with
    | Some record => (Return (url record), st, [])
    | None => (Raise KeyError, st, [])
    end.

(** [pending_downloads[user_id] = record] *)
Definition set_pending (user_id : Z) (record : pending) : io unit :=
  fun st =>
    (Return tt,
     {| pending_downloads := <[user_id := record]> (pending_downloads st);
        fs := fs st |}, []).

(** [pending_downloads.pop(user_id, None)] *)
Definition pop_pending (user_id : Z) : io unit :=
  fun st =>
    (Return tt,
     {| pending_downloads := delete user_id (pending_downloads st);
        fs := fs st |}, []).

(** [l[i]] *)
Definition index {A} (l : list A) (i : nat) : io A :=
  match l !! i with
  | Some x => io_ret x
  | None => raise IndexError
  end.

Definition Markdown : option str := Some (py "Markdown").

Definition valid_prefixes : list str :=
  [py "https://open.spotify.com/track/";
   py "https://open.spotify.com/playlist/";
   py "https://open.spotify.com/album/";
   py "spotify:track:";
   py "spotify:playlist:";
   py "spotify:album:"].

Definition format_keyboard : list (list button) :=
  [(fun fmt => {| button_text := upper fmt;
                  callback_data := py "format_" ++ fmt |})
     <$> SUPPORTED_FORMATS].

Definition choose_format_text : str :=
  [0x1f3b5]%N ++ py " *Choose your preferred audio format:*".

Definition invalid_url_text : str :=
  [0x2757]%N ++
  py " Please send a valid Spotify track, playlist, or album URL.".

Definition handle_message (user_id : Z) (text : str) : io unit :=
  let message := strip text in
  if existsb (fun prefix => startswith message prefix) valid_prefixes then
    set_pending user_id {| url := message |} ;;;
    emit (ReplyText choose_format_text (Some format_keyboard) Markdown)
  else
    emit (ReplyText invalid_url_text None None).

(** The closure [safe_edit_text] of [button_handler]. *)
Definition safe_edit_text (w : world) (message_text : str)
    (parse_mode : option str) : io unit :=
  edited <- attempt (request (EditMessageText message_text parse_mode)
                       (edit_message_text w message_text parse_mode)) ;;
  match edited with
  | Raise (BadRequest e) =>
      if contains (py "Message is not modified") e then io_ret tt
      else raise (BadRequest e)
  | Raise e => raise e
  | Return _ => io_ret tt
  end.

Definition help_menu_text : str :=
  py "*Help Menu*" ++ [10; 10]%N ++
  py "Send a Spotify link to download music." ++ [10]%N ++
  py "After sending, choose your format." ++ [10]%N ++
  py "Use /status to check bot status.".

Definition operational_text : str :=
  [0x2705]%N ++
  py " Bot is operational and ready to download Spotify music.".

Definition no_pending_text : str :=
  [0x26a0; 0xfe0f]%N ++
  py " No pending downloads. Send a Spotify link first.".

Definition invalid_format_text : str :=
  [0x274c]%N ++ py " Invalid format selected.".

Definition downloading_text (selected_format : str) : str :=
  [0x23ec]%N ++ py " Downloading in *" ++ upper selected_format ++
  py "* format. Please wait...".

Definition download_failed_text : str :=
  [0x274c]%N ++ py " Failed to download. Try again later.".

Definition zip_filename (selected_format : str) : str :=
  py "spotify_download." ++ selected_format ++ py ".zip".

Definition zip_caption (n : nat) (selected_format : str) : str :=
  [0x2705]%N ++ py " Downloaded " ++ str_of_nat n ++ py " tracks in *" ++
  upper selected_format ++ py "* format.".

Definition audio_caption (selected_format : str) : str :=
  [0x2705]%N ++ py " Here's your track in *" ++ upper selected_format ++
  py "* format!".

Definition send_failed_text : str :=
  [0x274c]%N ++ py " Failed to send file(s). Try again.".

(** The body of the [try] block: zip and [reply_document] for several
    files, [reply_audio] for one. *)
Definition send_files (w : world) (selected_format : str)
    (downloaded_files : list str) : io unit :=
  if (1 <? length downloaded_files)%nat then
    let archive :=
      (fun filepath => (filepath, relpath w filepath (py "downloads")))
        <$> downloaded_files in
    let filename := zip_filename selected_format in
    let caption := zip_caption (length downloaded_files) selected_format in
    request (ReplyDocument filename archive caption Markdown)
      (send_document w filename archive caption Markdown)
  else
    file_path <- index downloaded_files 0 ;;
    let caption := audio_caption selected_format in
    request (ReplyAudio file_path caption Markdown)
      (send_audio w file_path caption Markdown).

(** [pending_downloads.pop(user_id, None)] and the guarded [rmtree] of
    the download directory: the clean-up both exits of the download
    stage end with. *)
Definition cleanup (user_id : Z) : io unit :=
  pop_pending user_id ;;;
  present <- path_exists (py "downloads") ;;
  if present then rmtree (py "downloads") else io_ret tt.

(** The [try]/[except]/[finally] statement that sends the files. *)
Definition send_stage (w : world) (user_id : Z) (selected_format : str)
    (downloaded_files : list str) : io unit :=
  try_finally
    (try_except
       (send_files w selected_format downloaded_files)
       (fun _ => emit (ReplyText send_failed_text None None)))
    (cleanup user_id).

(** The download stage of a format selection: what [button_handler]
    does once the user is known to have a pending download and the
    selected format is a supported one. *)
Definition download_stage (w : world) (user_id : Z) (selected_format : str)
  : io unit :=
  url <- pending_url user_id ;;
  safe_edit_text w (downloading_text selected_format) Markdown ;;;
  downloaded_files <- run_spotdl w url selected_format (py "downloads") ;;
  match downloaded_files with
  | [] =>
      safe_edit_text w download_failed_text None ;;;
      cleanup user_id
  | _ :: _ => send_stage w user_id selected_format downloaded_files
  end.

Definition button_handler (w : world) (user_id : Z) (data : str)
  : io unit :=
  emit (Answer None None) ;;;
  if str_eqb data (py "help") then
    safe_edit_text w help_menu_text Markdown
  else if str_eqb data (py "status") then
    safe_edit_text w operational_text None
  else if startswith data (py "format_") then
    known <- is_pending user_id ;;
    if negb known then safe_edit_text w no_pending_text None
    else
      selected_format <- index (split1 (py "_") data) 1 ;;
      if negb (bool_decide (selected_format ∈ SUPPORTED_FORMATS)) then
        safe_edit_text w invalid_format_text None
      else
        download_stage w user_id selected_format
  else
    emit (Answer (Some (py "Unknown action.")) (Some true)).

(** ** The command handlers and the dispatch set up by [main] *)

Definition welcome_msg : str :=
  [0x1f3a7]%N ++ py " *Welcome to the Spotify Downloader Bot!*" ++
  [10; 10]%N ++
  py "Send me a Spotify track, playlist, or album link, " ++
  py "and you'll be able to choose the audio format for download." ++
  [10; 10]%N ++
  py "Created with " ++ [0x2764; 0xfe0f]%N ++ py " by Lokesh.R".

Definition start_keyboard : list (list button) :=
  [[ {| button_text := py "Help"; callback_data := py "help" |};
     {| button_text := py "Status"; callback_data := py "status" |} ]].

(** [reply_markdown] is [reply_text] with [parse_mode="Markdown"]. *)
Definition start : io unit :=
  emit (ReplyText welcome_msg (Some start_keyboard) Markdown).

Definition help_text : str :=
  [0x1f4cc]%N ++ py " *How to use this bot:*" ++ [10; 10]%N ++
  py "1" ++ [0xfe0f; 0x20e3]%N ++
  py " Send a Spotify track, playlist, or album URL." ++ [10]%N ++
  py "2" ++ [0xfe0f; 0x20e3]%N ++
  py " Choose your preferred audio format from the options." ++ [10]%N ++
  py "3" ++ [0xfe0f; 0x20e3]%N ++
  py " Wait while I download your music and send it to you." ++
  [10; 10]%N ++
  [0x1f539]%N ++ py " Supported formats: mp3, m4a, flac, opus" ++ [10]%N ++
  [0x1f539]%N ++ py " Large playlists/albums are zipped for convenience." ++
  [10; 10]%N ++
  py "Commands:" ++ [10]%N ++
  py "/start - Welcome message" ++ [10]%N ++
  py "/help - Help message" ++ [10]%N ++
  py "/status - Check bot status".

Definition help_command : io unit :=
  emit (ReplyText help_text None Markdown).

Definition online_text : str :=
  [0x2705]%N ++
  py " Bot is online and ready to download your Spotify music!".

Definition status_command : io unit :=
  emit (ReplyText online_text None None).

(** An update as the handlers registered by [main] tell them apart: a
    command message (its command name, without the slash), any other
    text message, or the press of an inline button. *)
Inductive update : Type :=
  | CommandMessage (user_id : Z) (command : str)
  | TextMessage (user_id : Z) (text : str)
  | CallbackQuery (user_id : Z) (data : str)
  | EditedCommand (user_id : Z) (command : str)
  | EditedText (user_id : Z) (text : str).

(** [s.lower()] on a command name, which Telegram restricts to Latin
    letters, digits and underscores. *)
Definition lower (s : str) : str :=
  (fun c => if (65 <=? c) && (c <=? 90) then c + 32 else c)%N <$> s.

(** The command names [main] registers a [CommandHandler] for. *)
Definition registered (command : str) : bool :=
  str_eqb (lower command) (py "start") ||
  str_eqb (lower command) (py "help") ||
  str_eqb (lower command) (py "status").

(** The handlers of [main], in the order they are added; the first one
    that matches runs.  A [CommandHandler] compares the command in lower
    case; a command other than the three registered ones matches no
    handler.  The message handlers also take edited messages, for which
    [update.message] is [None]: the handler raises [AttributeError] on
    its first use. *)
Definition dispatch (w : world) (u : update) : io unit :=
  match u with
  | CommandMessage _ command =>
      if str_eqb (lower command) (py "start") then start
      else if str_eqb (lower command) (py "help") then help_command
      else if str_eqb (lower command) (py "status") then status_command
      else io_ret tt
  | TextMessage user_id text => handle_message user_id text
  | CallbackQuery user_id data => button_handler w user_id data
  | EditedCommand _ command =>
      if registered command then raise AttributeError else io_ret tt
  | EditedText _ _ => raise AttributeError
  end.

(** [app.run_polling()] on the updates that arrive, each with the world
    it meets: one update after the other; an exception that leaves a
    handler is logged by the application and the next update is taken,
    on the state the handler left. *)
Fixpoint run_polling (updates : list (world * update)) (st : state)
  : state * list event :=
  match updates with
  | [] => (st, [])
  | (w, u) :: rest =>
      match dispatch w u st with
      | (_, st1, ev1) =>
          match run_polling rest st1 with
          | (st2, ev2) => (st2, ev1 ++ ev2)
          end
      end
  end.

(** ** The vocabulary of the properties *)

(** [found top d root name]: walking directory [d], reached as path
    [top], meets the file [name] in the directory reached as [root]. *)
Inductive found : str → dir → str → str → Prop :=
  | found_here top d name :
      name ∈ dir_files d → found top d top name
  | found_below top d sub_name sub root name :
      (sub_name, sub) ∈ dir_subdirs d →
      found (join top sub_name) sub root name →
      found top d root name.

(** A file name with the extension of the requested format. *)
Definition has_extension (audio_format name : str) : Prop :=
  ∃ stem, name = stem ++ py "." ++ audio_format.

(** The command line [run_spotdl] builds. *)
Definition spotdl_command (url audio_format download_dir : str) : list str :=
  [py "spotdl"; url; py "--output"; download_dir;
   py "--overwrite"; py "skip"; py "--format"; audio_format].

(** The disk the downloader starts on: [download_dir] present and empty. *)
Definition prepared (download_dir : str) (disk : gmap str dir)
  : gmap str dir :=
  <[download_dir := Directory [] []]> disk.

(** What [safe_edit_text] does with the answer to the edit. *)
Definition edit_result (answer : option exn) : result unit :=
  match answer with
  | None => Return tt
  | Some (BadRequest e) =>
      if contains (py "Message is not modified") e then Return tt
      else Raise (BadRequest e)
  | Some e => Raise e
  end.

(** The edit goes through, or is the duplicate [safe_edit_text] ignores. *)
Definition edit_accepted (w : world) (message_text : str)
    (parse_mode : option str) : Prop :=
  edit_result (edit_message_text w message_text parse_mode) = Return tt.

(** The state the clean-up leaves. *)
Definition cleaned (user_id : Z) (st : state) : state :=
  {| pending_downloads := delete user_id (pending_downloads st);
     fs := delete (py "downloads") (fs st) |}.

(** The zip archive of the files: each one under its path relative to
    the download directory. *)
Definition zipped (w : world) (files : list str) : list (str * str) :=
  (fun filepath => (filepath, relpath w filepath (py "downloads"))) <$> files.

(** A Spotify URL, in the words of the specification: the text starts
    with one of the six link or URI prefixes. *)
Definition is_spotify_url (message : str) : Prop :=
  ∃ prefix rest,
    message = prefix ++ rest ∧
    (prefix = py "https://open.spotify.com/track/" ∨
     prefix = py "https://open.spotify.com/playlist/" ∨
     prefix = py "https://open.spotify.com/album/" ∨
     prefix = py "spotify:track:" ∨
     prefix = py "spotify:playlist:" ∨
     prefix = py "spotify:album:").

(** What [handle_message] leaves when it accepts the message. *)
Definition submitted (user_id : Z) (message : str) (st : state) : state :=
  {| pending_downloads :=
       <[user_id := {| url := message |}]> (pending_downloads st);
     fs := fs st |}.

(** A document, as opposed to any other thing sent. *)
Definition is_document (e : event) : bool :=
  match e with
  | ReplyDocument _ _ _ _ => true
  | _ => false
  end.

(** The world's answer to a request the handlers log: [None] when it is
    accepted (or is no request that can be refused), [Some e] when it
    raises [e]. *)
Definition answer_to (w : world) (request : event) : option exn :=
  match request with
  | EditMessageText text parse_mode => edit_message_text w text parse_mode
  | ReplyDocument filename archive caption parse_mode =>
      send_document w filename archive caption parse_mode
  | ReplyAudio audio caption parse_mode => send_audio w audio caption parse_mode
  | _ => None
  end.

(** A file sent to the user, as a document or as audio. *)
Definition is_upload (e : event) : bool :=
  match e with
  | ReplyDocument _ _ _ _ | ReplyAudio _ _ _ => true
  | _ => false
  end.

(** An entry name as a file system has them: it does not begin with
    the path separator. *)
Definition plain_name (name : str) : bool :=
  negb (startswith name (py "/")).

(** Every entry name in the tree is plain. *)
Fixpoint plain_tree (d : dir) : bool :=
  match d with
  | Directory files subdirs =>
      forallb plain_name files &&
      forallb (fun e => plain_name e.1 && plain_tree e.2) subdirs
  end.

(** The user an update comes from. *)
Definition update_user (u : update) : Z :=
  match u with
  | CommandMessage user_id _ => user_id
  | TextMessage user_id _ => user_id
  | CallbackQuery user_id _ => user_id
  | EditedCommand user_id _ => user_id
  | EditedText user_id _ => user_id
  end.

(** Every pending record holds a Spotify URL free of surrounding
    whitespace. *)
Definition pending_urls_valid (st : state) : Prop :=
  ∀ user_id record,
    pending_downloads st !! user_id = Some record →
    is_spotify_url (url record) ∧ strip (url record) = url record.

(** A string of whitespace only. *)
Definition blank (s : str) : Prop := Forall (fun c => isspace c = true) s.

(** No whitespace at the start. *)
Definition starts_clean (s : str) : Prop :=
  match s with
  | [] => True
  | c :: _ => isspace c = false
  end.

(** The code points Python counts as whitespace, one by one. *)
Definition unicode_whitespace : list N :=
  [9; 10; 11; 12; 13; 28; 29; 30; 31; 32; 0x85; 0xa0; 0x1680;
   0x2000; 0x2001; 0x2002; 0x2003; 0x2004; 0x2005; 0x2006; 0x2007;
   0x2008; 0x2009; 0x200a; 0x2028; 0x2029; 0x202f; 0x205f; 0x3000]%N.

(** [message] is [text] without the whitespace around it: [text] is
    [message] between two runs of whitespace, and [message] neither
    begins nor ends with whitespace. *)
Definition stripped_of (text message : str) : Prop :=
  ∃ before after,
    text = before ++ message ++ after ∧
    Forall (fun c => c ∈ unicode_whitespace) before ∧
    Forall (fun c => c ∈ unicode_whitespace) after ∧
    (∀ c, head message = Some c → c ∉ unicode_whitespace) ∧
    (∀ c, last message = Some c → c ∉ unicode_whitespace).

(** The exit code of a process that ran to its end, whether or not its
    output could be read as text. *)
Definition exit_code (out : process) : option Z :=
  match out with
  | Completed returncode _ | Undecodable returncode => Some returncode
  | Expired | NotStarted _ => None
  end.

(** ** Concrete runs *)

Module Runs.

Definition track : str :=
  py "https://open.spotify.com/track/4uLU6hMCjMI75M1A2tKUQC".

(** User 7 has submitted [track]. *)
Definition waiting : state :=
  {| pending_downloads := {[ 7 := {| url := track |} ]}; fs := ∅ |}.

(** What the downloader leaves for an album of two tracks. *)
Definition album : dir :=
  Directory [py "cover.jpg"]
    [(py "Artist", Directory [py "One.mp3"; py "Two.mp3"; py "One.lrc"] [])].

(** A world where the downloader exits with [returncode] and leaves
    [left] as the download directory, and Telegram answers the edits
    as [edits] says and accepts everything sent. *)
Definition world_of (returncode : Z) (left : dir)
    (edits : str → option exn) : world :=
  {| spawn := fun command disk =>
       (Completed returncode [], <[py "downloads" := left]> disk);
     edit_message_text := fun message_text _ => edits message_text;
     send_document := fun _ _ _ _ => None;
     send_audio := fun _ _ _ => None;
     relpath := fun path start => drop (S (length start)) path |}.

Definition downloads_album : world :=
  world_of 0 album (fun _ => None).

Definition download_fails : world :=
  world_of 1 (Directory [] []) (fun _ => None).

(** The download fails and the message to edit is gone by then. *)
Definition notice_lost : world :=
  world_of 1 (Directory [] [])
    (fun message_text =>
       if str_eqb message_text download_failed_text
       then Some (BadRequest (py "Message to edit not found"))
       else None).

End Runs.

(** ** Concrete sessions *)

Module Sessions.

(** The bot as it starts: nothing pending, nothing on disk. *)
Definition fresh : state := {| pending_downloads := ∅; fs := ∅ |}.

Definition album_link : str := py "spotify:album:1DFixLWuPkv3KT3TnV35m3".

(** Users 7 and 8 have both submitted a link. *)
Definition both_waiting : state :=
  {| pending_downloads :=
       {[ 7 := {| url := Runs.track |}; 8 := {| url := album_link |} ]};
     fs := ∅ |}.

(** User 7 sends a link with blanks around it and asks for mp3, the
    download of the album succeeds; user 8 presses a button without
    having sent anything, then greets. *)
Definition evening : list (world * update) :=
  [(Runs.downloads_album, CommandMessage 7 (py "start"));
   (Runs.downloads_album, TextMessage 7 ([32; 32]%N ++ Runs.track ++ [10]%N));
   (Runs.downloads_album, CallbackQuery 8 (py "format_flac"));
   (Runs.downloads_album, CallbackQuery 7 (py "format_mp3"));
   (Runs.downloads_album, TextMessage 8 (py "hello"))].

(** Only user 8 is active. *)
Definition only_eight : list (world * update) :=
  [(Runs.download_fails, TextMessage 8 album_link);
   (Runs.download_fails, CallbackQuery 8 (py "format_mp3"));
   (Runs.download_fails, CallbackQuery 8 (py "format_mp3"))].

(** What [run_spotdl] leaves after the album run from [Runs.waiting]. *)
Definition after_album : state :=
  {| pending_downloads := pending_downloads Runs.waiting;
     fs := {[ py "downloads" := Runs.album ]} |}.

Definition album_files : list str :=
  [py "downloads/Artist/One.mp3"; py "downloads/Artist/Two.mp3"].

End Sessions.

(** ** Downloader failures *)

Module Failures.

(** The downloader exits with code 1 and writes to its error output
    bytes that are no text. *)
Definition garbled_failure : world :=
  {| spawn := fun command disk => (Undecodable 1, disk);
     edit_message_text := fun _ _ => None;
     send_document := fun _ _ _ _ => None;
     send_audio := fun _ _ _ => None;
     relpath := fun path start => path |}.

(** No [spotdl] on the path. *)
Definition spotdl_missing : world :=
  {| spawn := fun command disk => (NotStarted FileNotFoundError, disk);
     edit_message_text := fun _ _ => None;
     send_document := fun _ _ _ _ => None;
     send_audio := fun _ _ _ => None;
     relpath := fun path start => path |}.

End Failures.

(** * Properties *)

(** ** Prefixes, suffixes and extensions *)

Section Strings.
Implicit Types s t prefix suffix : str.

Lemma startswith_app s t : startswith (s ++ t) s = true.
Proof.
  induction s as [|c s IH]; simpl; [done|].
  by rewrite N.eqb_refl, IH.
Qed.

Lemma startswith_inv s prefix :
  startswith s prefix = true → ∃ rest, s = prefix ++ rest.
Proof.
  revert s. induction prefix as [|p prefix IH]; intros s H.
  - by exists s.
  - destruct s as [|c s]; simpl in H; [done|].
    apply andb_true_iff in H as [Hc Hs].
    apply N.eqb_eq in Hc as ->.
    destruct (IH _ Hs) as [rest ->]. by exists rest.
Qed.

Lemma startswith_prefix s prefix :
  startswith s prefix = true ↔ ∃ rest, s = prefix ++ rest.
Proof.
  split; [apply startswith_inv|].
  intros [rest ->]. apply startswith_app.
Qed.

Lemma endswith_suffix s suffix :
  endswith s suffix = true ↔ ∃ stem, s = stem ++ suffix.
Proof.
  unfold endswith. rewrite startswith_prefix. split.
  - intros [rest H]. exists (reverse rest).
    apply (inj reverse). by rewrite H, reverse_app, reverse_involutive.
  - intros [stem ->]. exists (reverse stem). apply reverse_app.
Qed.

Lemma existsb_startswith s (prefixes : list str) :
  existsb (fun prefix => startswith s prefix) prefixes = true ↔
  ∃ prefix rest, prefix ∈ prefixes ∧ s = prefix ++ rest.
Proof.
  rewrite existsb_exists. split.
  - intros (prefix & Hin & H). apply startswith_inv in H as [rest ->].
    exists prefix, rest. by rewrite list_elem_of_In.
  - intros (prefix & rest & Hin & ->). exists prefix.
    split; [by apply list_elem_of_In | apply startswith_app].
Qed.
End Strings.

(** ** What [os.walk] meets *)

Lemma dir_rect_nested (P : dir → Prop) :
  (∀ files subdirs,
     Forall (fun e => P e.2) subdirs → P (Directory files subdirs)) →
  ∀ d, P d.
Proof.
  intros step. fix IH 1. intros [files subdirs]. apply step.
  induction subdirs as [|e subdirs IHs]; constructor; [apply IH | apply IHs].
Qed.

Lemma elem_of_flat_map {A B} (f : A → list B) (l : list A) (y : B) :
  y ∈ flat_map f l ↔ ∃ x, x ∈ l ∧ y ∈ f x.
Proof.
  rewrite list_elem_of_In, in_flat_map.
  by setoid_rewrite list_elem_of_In.
Qed.

Lemma walk_found top d root dirs files name :
  (root, dirs, files) ∈ walk top d →
  name ∈ files →
  found top d root name.
Proof.
  revert top. induction d as [fs0 subdirs IH] using dir_rect_nested.
  intros top Hin Hname. simpl in Hin.
  apply elem_of_cons in Hin as [Heq | Hin].
  - injection Heq as -> _ ->. by apply found_here.
  - apply elem_of_flat_map in Hin as ([sub_name sub] & Hsub & Hin).
    rewrite Forall_forall in IH.
    apply found_below with sub_name sub; [done|].
    by apply (IH (sub_name, sub)).
Qed.

Lemma found_walk top d root name :
  found top d root name →
  ∃ dirs files, (root, dirs, files) ∈ walk top d ∧ name ∈ files.
Proof.
  induction 1 as [top [fs0 subdirs] name Hname
                 | top [fs0 subdirs] sub_name sub root name Hsub _ IH].
  - exists (subdirs.*1), fs0.
    split; [simpl; apply elem_of_cons; by left | done].
  - destruct IH as (dirs & files & Hin & Hname).
    exists dirs, files. split; [|done]. simpl. apply elem_of_cons. right.
    apply elem_of_flat_map. by exists (sub_name, sub).
Qed.

Lemma elem_of_collect audio_format walked path :
  path ∈ collect audio_format walked ↔
  ∃ root dirs files name,
    (root, dirs, files) ∈ walked ∧ name ∈ files ∧
    has_extension audio_format name ∧ path = join root name.
Proof.
  unfold collect. rewrite elem_of_flat_map. split.
  - intros ([[root dirs] files] & Hin & Hpath).
    apply list_elem_of_fmap in Hpath as (name & -> & Hname).
    apply list_elem_of_filter in Hname as [Hext Hname].
    exists root, dirs, files, name. repeat split; try done.
    by apply endswith_suffix.
  - intros (root & dirs & files & name & Hin & Hname & Hext & ->).
    exists (root, dirs, files). split; [done|].
    apply list_elem_of_fmap. exists name. split; [done|].
    apply list_elem_of_filter. split; [|done].
    by apply endswith_suffix.
Qed.

(** ** The steps of the handlers, computed *)

Ltac io_unfold :=
  unfold io_bind, io_ret, raise, emit, request, attempt, try_except,
    try_finally, path_exists, rmtree, makedirs, subprocess_run, os_walk,
    is_pending, pending_url, set_pending, pop_pending, index.

Lemma safe_edit_text_eq w message_text parse_mode st :
  safe_edit_text w message_text parse_mode st =
  (edit_result (edit_message_text w message_text parse_mode), st,
   [EditMessageText message_text parse_mode]).
Proof.
  unfold safe_edit_text, edit_result. io_unfold.
  destruct (edit_message_text w message_text parse_mode) as [[e| | | | | | | |]|];
    simpl; try done.
  by destruct (contains _ e).
Qed.

Lemma prepare_disk (download_dir : str) (disk : gmap str dir) :
  (if bool_decide (is_Some (disk !! download_dir))
   then match delete download_dir disk !! download_dir with
        | Some _ => delete download_dir disk
        | None => <[download_dir := Directory [] []]>
                    (delete download_dir disk)
        end
   else match disk !! download_dir with
        | Some _ => disk
        | None => <[download_dir := Directory [] []]> disk
        end) = prepared download_dir disk.
Proof.
  unfold prepared. case_bool_decide as Hin.
  - by rewrite lookup_delete_eq, insert_delete_eq.
  - destruct (disk !! download_dir) eqn:E; [|done].
    destruct Hin. by eexists.
Qed.

Lemma run_spotdl_eq w url audio_format download_dir st :
  run_spotdl w url audio_format download_dir st =
  match spawn w (spotdl_command url audio_format download_dir)
          (prepared download_dir (fs st)) with
  | (out, disk) =>
      (match out with
       | Completed 0 _ =>
           Return match disk !! download_dir with
                  | Some d => collect audio_format (walk download_dir d)
                  | None => []
                  end
       | Completed _ _ | Expired | NotStarted TimeoutExpired => Return []
       | Undecodable _ => Raise UnicodeDecodeError
       | NotStarted e => Raise e
       end,
       {| pending_downloads := pending_downloads st; fs := disk |},
       [SubprocessRun (spotdl_command url audio_format download_dir) 300])
  end.
Proof.
  unfold run_spotdl, spotdl_command. io_unfold. simpl.
  pose proof (prepare_disk download_dir (fs st)) as Hdisk.
  case_bool_decide; simpl in *; rewrite Hdisk;
    destruct (spawn w _ _) as [[|returncode stderr|returncode|e] disk];
    simpl; try done;
    try (destruct returncode; simpl; try done;
         by destruct (disk !! download_dir));
    by destruct e.
Qed.

(** Whatever the downloader does, [run_spotdl] leaves the pending
    records alone and logs the one process it starts. *)
Lemma run_spotdl_shape w url audio_format download_dir st :
  ∃ r disk,
    run_spotdl w url audio_format download_dir st =
    (r, {| pending_downloads := pending_downloads st; fs := disk |},
     [SubprocessRun (spotdl_command url audio_format download_dir) 300]).
Proof.
  rewrite run_spotdl_eq. destruct (spawn w _ _) as [out disk]. by eexists _, _.
Qed.

(** A list that comes back is empty, or what the walk collects after
    exit code 0. *)
Lemma run_spotdl_returned w url audio_format download_dir st files st' events :
  run_spotdl w url audio_format download_dir st = (Return files, st', events) →
  files = [] ∨
  ∃ d, fs st' !! download_dir = Some d ∧
       files = collect audio_format (walk download_dir d).
Proof.
  rewrite run_spotdl_eq. destruct (spawn w _ _) as [out disk].
  intros [= Hfiles <- _]. cbn [fs].
  destruct out as [|[| |] stderr|returncode|e];
    try (injection Hfiles as <-; by left); try done.
  - injection Hfiles as <-.
    destruct (disk !! download_dir) as [d|]; [right; by exists d | by left].
  - destruct e; try done; injection Hfiles as <-; by left.
Qed.

Lemma cleanup_eq user_id st :
  cleanup user_id st =
  (Return tt,
   {| pending_downloads := delete user_id (pending_downloads st);
      fs := delete (py "downloads") (fs st) |}, []).
Proof.
  unfold cleanup. io_unfold. simpl. case_bool_decide as Hin; simpl; [done|].
  rewrite (delete_id (fs st)); [done|].
  destruct (fs st !! py "downloads") eqn:E; [|done].
  destruct Hin. by eexists.
Qed.

Lemma split1_format (selected : str) :
  split1 (py "_") (py "format_" ++ selected) = [py "format"; selected].
Proof. reflexivity. Qed.

Lemma format_not_help (selected : str) :
  str_eqb (py "format_" ++ selected) (py "help") = false.
Proof. unfold str_eqb. by case_bool_decide. Qed.

Lemma format_not_status (selected : str) :
  str_eqb (py "format_" ++ selected) (py "status") = false.
Proof. unfold str_eqb. by case_bool_decide. Qed.

(** Runs [button_handler] on [format_X] up to the test of [X]. *)
Ltac dispatch_format Hknown :=
  unfold io_bind, emit, is_pending, index, io_ret;
  rewrite (bool_decide_eq_true_2 _ Hknown), split1_format;
  cbn [negb];
  match goal with
  | |- context [[?a; ?b] !! 1%nat] => change ([a; b] !! 1%nat) with (Some b)
  end;
  cbv beta iota.

(** A callback [format_X] of an unsupported [X]: the guard answers and
    nothing else happens. *)
Lemma button_handler_unsupported w user_id selected st :
  is_Some (pending_downloads st !! user_id) →
  selected ∉ SUPPORTED_FORMATS →
  button_handler w user_id (py "format_" ++ selected) st =
  (edit_result (edit_message_text w invalid_format_text None), st,
   [Answer None None; EditMessageText invalid_format_text None]).
Proof.
  intros Hknown Hformat. unfold button_handler.
  rewrite format_not_help, format_not_status, startswith_app.
  dispatch_format Hknown.
  rewrite (bool_decide_eq_false_2 _ Hformat). cbn [negb].
  by rewrite safe_edit_text_eq.
Qed.

(** A callback [format_X] of a supported [X] by a user with a pending
    download enters the download stage. *)
Lemma button_handler_supported w user_id selected st :
  is_Some (pending_downloads st !! user_id) →
  selected ∈ SUPPORTED_FORMATS →
  button_handler w user_id (py "format_" ++ selected) st =
  match download_stage w user_id selected st with
  | (r, st', events) => (r, st', Answer None None :: events)
  end.
Proof.
  intros Hknown Hformat. unfold button_handler.
  rewrite format_not_help, format_not_status, startswith_app.
  dispatch_format Hknown.
  rewrite (bool_decide_eq_true_2 _ Hformat). cbn [negb].
  by destruct (download_stage w user_id selected st) as [[r st'] events].
Qed.

Lemma send_stage_eq w user_id selected files st :
  files ≠ [] →
  ∃ r sent tail,
    send_stage w user_id selected files st =
      (r, cleaned user_id st, sent :: tail) ∧
    (tail = [] ∨ tail = [ReplyText send_failed_text None None]) ∧
    ((1 < length files)%nat ∧
       sent = ReplyDocument (zip_filename selected) (zipped w files)
                (zip_caption (length files) selected) Markdown
     ∨ (∃ file_path, files = [file_path] ∧
          sent = ReplyAudio file_path (audio_caption selected) Markdown)).
Proof.
  intros Hfiles. unfold send_stage, try_finally, try_except, send_files.
  destruct files as [|file_path [|more files]]; [done| |].
  - (* one file: reply_audio *)
    cbn [length Nat.ltb Nat.leb]. unfold io_bind, index, io_ret, request.
    cbn [lookup list_lookup].
    destruct (send_audio w file_path _ _) as [e|]; cbn [app];
      [destruct (is_Exception e); unfold emit|];
      rewrite cleanup_eq; cbn [app];
      eexists _, _, _; (split; [reflexivity|]); eauto 6.
  - (* several files: zip and reply_document *)
    change (1 <? length (file_path :: more :: files))%nat with true.
    cbv iota. unfold request. fold (zipped w (file_path :: more :: files)).
    destruct (send_document w _ _ _ _) as [e|];
      [destruct (is_Exception e); unfold emit|];
      rewrite cleanup_eq; cbn [app];
      eexists _, _, _; (split; [reflexivity|]);
      (split; [eauto|left; split; [simpl; lia | reflexivity]]).
Qed.

Lemma download_stage_eq w user_id selected record st files st1 ev1 :
  pending_downloads st !! user_id = Some record →
  edit_accepted w (downloading_text selected) Markdown →
  run_spotdl w (url record) selected (py "downloads") st =
    (Return files, st1, ev1) →
  download_stage w user_id selected st =
  match files with
  | [] =>
      (edit_result (edit_message_text w download_failed_text None),
       match edit_result (edit_message_text w download_failed_text None) with
       | Return _ => cleaned user_id st1
       | Raise _ => st1
       end,
       EditMessageText (downloading_text selected) Markdown ::
         ev1 ++ [EditMessageText download_failed_text None])
  | _ :: _ =>
      match send_stage w user_id selected files st1 with
      | (r, st2, ev2) =>
          (r, st2,
           EditMessageText (downloading_text selected) Markdown :: ev1 ++ ev2)
      end
  end.
Proof.
  intros Hpending Hedit Hrun. unfold edit_accepted in Hedit.
  unfold download_stage, io_bind, pending_url.
  rewrite Hpending, safe_edit_text_eq, Hedit, Hrun.
  destruct files as [|file_path files].
  - rewrite safe_edit_text_eq.
    destruct (edit_result (edit_message_text w download_failed_text None))
      as [[]|e]; [|done].
    by rewrite cleanup_eq, app_nil_r.
  - by destruct (send_stage _ _ _ _ _) as [[r st2] ev2].
Qed.

(** ** Whitespace around a message *)

Lemma lstrip_blank ws s : blank ws → lstrip (ws ++ s) = lstrip s.
Proof.
  induction 1 as [|c ws Hc _ IH]; simpl; [done|]. by rewrite Hc.
Qed.

Lemma lstrip_starts_clean s : starts_clean (lstrip s).
Proof.
  induction s as [|c s IH]; simpl; [done|].
  destruct (isspace c) eqn:Hc; [done|]. by simpl.
Qed.

Lemma lstrip_clean s : starts_clean s → lstrip s = s.
Proof. destruct s as [|c s]; simpl; [done|]. by intros ->. Qed.

Lemma lstrip_before_blank s ws :
  blank ws →
  lstrip (s ++ ws) = lstrip s ++ ws ∨ (lstrip (s ++ ws) = [] ∧ lstrip s = []).
Proof.
  intros Hws. induction s as [|c s IH]; simpl.
  - right. split; [|done].
    rewrite <- (app_nil_r ws). by rewrite lstrip_blank.
  - destruct (isspace c); [done | by left].
Qed.

Lemma lstrip_keeps_clean_char s c rest :
  isspace c = false → ∃ front, lstrip (s ++ c :: rest) = front ++ c :: rest.
Proof.
  intros Hc. induction s as [|c' s IH]; simpl.
  - rewrite Hc. by exists [].
  - destruct (isspace c'); [done|]. by exists (c' :: s).
Qed.

Lemma rstrip_blank s ws : blank ws → rstrip (s ++ ws) = rstrip s.
Proof.
  intros Hws. unfold rstrip. rewrite reverse_app, lstrip_blank; [done|].
  by apply Forall_reverse.
Qed.

Lemma rstrip_starts_clean s : starts_clean s → starts_clean (rstrip s).
Proof.
  destruct s as [|c s]; [done|]. simpl. intros Hc. unfold rstrip.
  rewrite reverse_cons.
  destruct (lstrip_keeps_clean_char (reverse s) c [] Hc) as [front ->].
  by rewrite reverse_snoc.
Qed.

Lemma rstrip_idempotent s : rstrip (rstrip s) = rstrip s.
Proof.
  unfold rstrip. rewrite reverse_involutive.
  by rewrite (lstrip_clean (lstrip _)) by apply lstrip_starts_clean.
Qed.

Lemma strip_blank ws s ws' :
  blank ws → blank ws' → strip (ws ++ s ++ ws') = strip s.
Proof.
  intros Hws Hws'. unfold strip. rewrite lstrip_blank by done.
  destruct (lstrip_before_blank s ws' Hws') as [-> | [-> ->]]; [|done].
  by apply rstrip_blank.
Qed.

Lemma strip_idempotent s : strip (strip s) = strip s.
Proof.
  unfold strip. rewrite (lstrip_clean (rstrip _)).
  - apply rstrip_idempotent.
  - apply rstrip_starts_clean, lstrip_starts_clean.
Qed.

Lemma isspace_spec c : isspace c = true ↔ c ∈ unicode_whitespace.
Proof.
  unfold isspace, unicode_whitespace.
  rewrite !orb_true_iff, !andb_true_iff, !N.leb_le, !N.eqb_eq.
  rewrite !elem_of_cons, elem_of_nil. lia.
Qed.

Lemma blank_spec s : blank s ↔ Forall (fun c => c ∈ unicode_whitespace) s.
Proof. unfold blank. apply Forall_proper; [|done]. intros c. apply isspace_spec. Qed.

Lemma starts_clean_spec s :
  starts_clean s ↔ ∀ c, head s = Some c → c ∉ unicode_whitespace.
Proof.
  destruct s as [|c s]; simpl.
  - split; [by intros _ ? [=] | done].
  - split.
    + intros Hc c' [= <-] Hin%isspace_spec. congruence.
    + intros Hc. destruct (isspace c) eqn:Hspace; [|done].
      destruct (Hc c eq_refl). by apply isspace_spec.
Qed.

Lemma lstrip_split s : ∃ ws, blank ws ∧ s = ws ++ lstrip s.
Proof.
  induction s as [|c s (ws & Hws & IH)]; simpl.
  - exists []. by split; [constructor|].
  - destruct (isspace c) eqn:Hc.
    + exists (c :: ws). split; [by constructor|]. simpl. by rewrite <- IH.
    + exists []. by split; [constructor|].
Qed.

Lemma rstrip_split s : ∃ ws, blank ws ∧ s = rstrip s ++ ws.
Proof.
  destruct (lstrip_split (reverse s)) as (ws & Hws & Heq).
  exists (reverse ws). split; [by apply Forall_reverse|].
  unfold rstrip. rewrite <- reverse_app, <- Heq. by rewrite reverse_involutive.
Qed.

(** [strip] yields the stripped text, and nothing else is one. *)
Lemma stripped_of_strip text : stripped_of text (strip text).
Proof.
  destruct (lstrip_split text) as (before & Hbefore & Htext).
  destruct (rstrip_split (lstrip text)) as (after & Hafter & Hrest).
  exists before, after. unfold strip.
  split; [by rewrite <- Hrest|].
  split; [by apply blank_spec|]. split; [by apply blank_spec|]. split.
  - apply starts_clean_spec, rstrip_starts_clean, lstrip_starts_clean.
  - intros c. rewrite <- head_reverse. apply starts_clean_spec.
    unfold rstrip. rewrite reverse_involutive. apply lstrip_starts_clean.
Qed.

Lemma stripped_of_unique text message :
  stripped_of text message → strip text = message.
Proof.
  intros (before & after & -> & Hbefore%blank_spec & Hafter%blank_spec
          & Hhead & Hlast).
  rewrite strip_blank by done. unfold strip.
  rewrite lstrip_clean by by apply starts_clean_spec.
  unfold rstrip. rewrite lstrip_clean, reverse_involutive; [done|].
  apply starts_clean_spec. intros c. rewrite head_reverse. apply Hlast.
Qed.

(** ** Incoming messages *)

Lemma is_spotify_url_spec message :
  is_spotify_url message ↔
  existsb (fun prefix => startswith message prefix) valid_prefixes = true.
Proof.
  rewrite existsb_startswith. unfold is_spotify_url, valid_prefixes.
  split.
  - intros (prefix & rest & -> & Hprefix). exists prefix, rest.
    split; [|done]. rewrite !elem_of_cons. tauto.
  - intros (prefix & rest & Hprefix & ->). exists prefix, rest.
    split; [done|]. rewrite !elem_of_cons, elem_of_nil in Hprefix. tauto.
Qed.

Lemma handle_message_valid user_id text st :
  is_spotify_url (strip text) →
  handle_message user_id text st =
  (Return tt, submitted user_id (strip text) st,
   [ReplyText choose_format_text (Some format_keyboard) Markdown]).
Proof.
  intros Hurl. apply is_spotify_url_spec in Hurl.
  unfold handle_message. by rewrite Hurl.
Qed.

Lemma handle_message_invalid user_id text st :
  ¬ is_spotify_url (strip text) →
  handle_message user_id text st =
  (Return tt, st, [ReplyText invalid_url_text None None]).
Proof.
  intros Hurl. rewrite is_spotify_url_spec in Hurl.
  unfold handle_message. by destruct (existsb _ _).
Qed.

(** The keyboard offers the four formats, each as [format_<fmt>]. *)
Example format_keyboard_buttons :
  format_keyboard =
  [[ {| button_text := py "MP3"; callback_data := py "format_mp3" |};
     {| button_text := py "M4A"; callback_data := py "format_m4a" |};
     {| button_text := py "FLAC"; callback_data := py "format_flac" |};
     {| button_text := py "OPUS"; callback_data := py "format_opus" |} ]].
Proof. reflexivity. Qed.

(** C2. For every text, [handle_message] works on the text without
    the whitespace around it.  When that message starts with one of the
    six Spotify prefixes it is accepted: the record of the user is set
    to it and the reply offers the four formats, one button each,
    carrying [format_mp3], [format_m4a], [format_flac], [format_opus].
    In every other case the only effect is the reply that the URL is
    invalid. *)
Theorem handle_message_accepts_iff_spotify_url user_id text st :
  ∃ message,
    stripped_of text message ∧
    ((is_spotify_url message ∧
      handle_message user_id text st =
        (Return tt,
         {| pending_downloads :=
              <[user_id := {| url := message |}]> (pending_downloads st);
            fs := fs st |},
         [ReplyText
            ([0x1f3b5]%N ++ py " *Choose your preferred audio format:*")
            (Some
               [[ {| button_text := py "MP3";
                     callback_data := py "format_mp3" |};
                  {| button_text := py "M4A";
                     callback_data := py "format_m4a" |};
                  {| button_text := py "FLAC";
                     callback_data := py "format_flac" |};
                  {| button_text := py "OPUS";
                     callback_data := py "format_opus" |} ]])
            (Some (py "Markdown"))]))
     ∨
     (¬ is_spotify_url message ∧
      handle_message user_id text st =
        (Return tt, st,
         [ReplyText
            ([0x2757]%N ++
             py " Please send a valid Spotify track, playlist, or album URL.")
            None None]))).
Proof.
  exists (strip text). split; [apply stripped_of_strip|].
  destruct (existsb (fun prefix => startswith (strip text) prefix)
              valid_prefixes) eqn:Htest.
  - apply is_spotify_url_spec in Htest. left.
    split; [done | by apply handle_message_valid].
  - assert (¬ is_spotify_url (strip text)) as Hurl.
    { rewrite is_spotify_url_spec. by rewrite Htest. }
    right. split; [done | by apply handle_message_invalid].
Qed.

(** C5. After a valid submission [pending_downloads] maps the user to a
    record holding exactly the submitted URL, whatever was stored for
    that user before; the other users keep their records; and the
    dictionary holds one record per user: its keys are distinct, and a
    user who had a record has it replaced, not doubled. *)
Theorem handle_message_overwrites user_id text st :
  is_spotify_url (strip text) →
  let after := pending_downloads (handle_message user_id text st).1.2 in
  after !! user_id = Some {| url := strip text |} ∧
  (∀ other,
     other ≠ user_id → after !! other = pending_downloads st !! other) ∧
  NoDup (map_to_list after).*1 ∧
  (is_Some (pending_downloads st !! user_id) →
   size after = size (pending_downloads st)).
Proof.
  intros Hurl. rewrite (handle_message_valid _ _ _ Hurl). simpl.
  repeat split.
  - apply lookup_insert_eq.
  - intros other Hother. by apply lookup_insert_ne.
  - apply NoDup_fst_map_to_list.
  - intros [old Hold]. by apply map_size_insert_Some.
Qed.

(** C6, as amended. When the text without the whitespace around it
    does not start with a valid prefix, [handle_message] leaves
    [pending_downloads], and the whole state, as they were. *)
Theorem handle_message_invalid_keeps_pending user_id text message st :
  stripped_of text message →
  ¬ is_spotify_url message →
  (handle_message user_id text st).1.2 = st ∧
  ∀ other,
    pending_downloads (handle_message user_id text st).1.2 !! other =
    pending_downloads st !! other.
Proof.
  intros <-%stripped_of_unique Hurl.
  by rewrite (handle_message_invalid _ _ _ Hurl).
Qed.

(** ** The downloader *)

(** C7, as amended. Called on a directory that can be created (a
    non-empty path), [run_spotdl] returns a list, and does not raise,
    whenever the process ends by the 300-second timeout or by exiting
    with output that is text: the empty list on the timeout and on a
    non-zero exit code.  And whatever the process does, a non-empty list
    is returned only after exit code 0. *)
Theorem run_spotdl_empty_on_failure
    w url audio_format download_dir st out disk :
  download_dir ≠ [] →
  spawn w (spotdl_command url audio_format download_dir)
    (prepared download_dir (fs st)) = (out, disk) →
  (out = Expired ∨ (∃ returncode stderr, out = Completed returncode stderr) →
   ∃ files,
     run_spotdl w url audio_format download_dir st =
       (Return files,
        {| pending_downloads := pending_downloads st; fs := disk |},
        [SubprocessRun (spotdl_command url audio_format download_dir) 300]) ∧
     (out = Expired ∨
      (∃ returncode stderr,
         out = Completed returncode stderr ∧ returncode ≠ 0) →
      files = [])) ∧
  (∀ files st' events,
     run_spotdl w url audio_format download_dir st =
       (Return files, st', events) →
     files ≠ [] → ∃ stderr, out = Completed 0 stderr).
Proof.
  intros _ Hspawn. rewrite run_spotdl_eq, Hspawn. split.
  - intros [-> | (returncode & stderr & ->)].
    + eexists. split; [reflexivity|]. done.
    + destruct returncode; (eexists; split; [reflexivity|]);
        intros [? | (? & ? & [= <- _] & ?)]; done.
  - intros files st' events Hrun Hfiles.
    destruct out as [|[| |] stderr|returncode|e].
    + by injection Hrun as <-.
    + by exists stderr.
    + by injection Hrun as <-.
    + by injection Hrun as <-.
    + done.
    + destruct e; try done. by injection Hrun as <-.
Qed.

(** C4. After exit code 0 the result of [run_spotdl] is exactly what
    the walk of [download_dir] meets with the extension of the requested
    format: a path is returned if and only if it is [join root name]
    for a file [name], in a directory [root] of the tree under
    [download_dir], whose name ends with ["." + audio_format]. *)
Theorem run_spotdl_collects w url audio_format download_dir st stderr disk :
  spawn w (spotdl_command url audio_format download_dir)
    (prepared download_dir (fs st)) = (Completed 0 stderr, disk) →
  ∃ files,
    run_spotdl w url audio_format download_dir st =
      (Return files,
       {| pending_downloads := pending_downloads st; fs := disk |},
       [SubprocessRun (spotdl_command url audio_format download_dir) 300]) ∧
    ∀ path,
      path ∈ files ↔
      ∃ d root name,
        disk !! download_dir = Some d ∧
        found download_dir d root name ∧
        has_extension audio_format name ∧
        path = join root name.
Proof.
  intros Hspawn. rewrite run_spotdl_eq, Hspawn.
  eexists. split; [reflexivity|]. intros path.
  destruct (disk !! download_dir) as [d|].
  - rewrite elem_of_collect. split.
    + intros (root & dirs & files & name & Hin & Hname & Hext & ->).
      exists d, root, name. repeat split; try done.
      by apply walk_found with dirs files.
    + intros (d' & root & name & [= <-] & Hfound & Hext & ->).
      apply found_walk in Hfound as (dirs & files & Hin & Hname).
      by exists root, dirs, files, name.
  - split; [by intros ?%elem_of_nil|]. by intros (d & _ & _ & [=] & _).
Qed.

(** ** Format selections *)

(** C8. A callback [format_X] with [X] none of mp3, m4a, flac, opus,
    from a user with a pending download: the handler acknowledges the
    callback, edits the message to the invalid-format notice and stops
    there (its outcome is the outcome of that edit); the state, so the
    record of the user, is untouched and no process is started. *)
Theorem button_handler_rejects_unknown_format w user_id selected st :
  is_Some (pending_downloads st !! user_id) →
  selected ≠ py "mp3" → selected ≠ py "m4a" →
  selected ≠ py "flac" → selected ≠ py "opus" →
  button_handler w user_id (py "format_" ++ selected) st =
    (edit_result (edit_message_text w invalid_format_text None), st,
     [Answer None None; EditMessageText invalid_format_text None]) ∧
  pending_downloads (button_handler w user_id (py "format_" ++ selected) st).1.2
    !! user_id = pending_downloads st !! user_id ∧
  ∀ command timeout,
    SubprocessRun command timeout ∉
      (button_handler w user_id (py "format_" ++ selected) st).2.
Proof.
  intros Hknown Hmp3 Hm4a Hflac Hopus.
  assert (selected ∉ SUPPORTED_FORMATS) as Hformat.
  { unfold SUPPORTED_FORMATS. rewrite !elem_of_cons, elem_of_nil. tauto. }
  rewrite (button_handler_unsupported _ _ _ _ Hknown Hformat).
  repeat split. simpl. intros command timeout.
  rewrite !elem_of_cons, elem_of_nil. by intros [|[|]].
Qed.

(** C3. When the download of a format selection yields a non-empty
    list, the handler sends exactly one thing: for more than one file a
    document, the zip archive of all of them; for exactly one file that
    file itself, as audio; so a document is sent if and only if there
    are several files.  After it comes at most the notice that sending
    failed. *)
Theorem button_handler_zips_iff_several
    w user_id selected record st files st1 ev1 :
  pending_downloads st !! user_id = Some record →
  selected ∈ SUPPORTED_FORMATS →
  edit_accepted w (downloading_text selected) Markdown →
  run_spotdl w (url record) selected (py "downloads") st =
    (Return files, st1, ev1) →
  files ≠ [] →
  ∃ r st' sent tail,
    button_handler w user_id (py "format_" ++ selected) st =
      (r, st',
       Answer None None ::
       EditMessageText (downloading_text selected) Markdown ::
       ev1 ++ sent :: tail) ∧
    (tail = [] ∨ tail = [ReplyText send_failed_text None None]) ∧
    ((1 < length files)%nat ∧
       sent = ReplyDocument (zip_filename selected) (zipped w files)
                (zip_caption (length files) selected) Markdown
     ∨ (∃ file_path, files = [file_path] ∧
          sent = ReplyAudio file_path (audio_caption selected) Markdown)) ∧
    (is_document sent = true ↔ (1 < length files)%nat).
Proof.
  intros Hpending Hformat Hedit Hrun Hfiles.
  rewrite button_handler_supported by eauto.
  rewrite (download_stage_eq _ _ _ _ _ _ _ _ Hpending Hedit Hrun).
  destruct (send_stage_eq w user_id selected files st1 Hfiles)
    as (r & sent & tail & Hsend & Htail & Hsent).
  destruct files as [|file_path files]; [done|]. rewrite Hsend.
  exists r, (cleaned user_id st1), sent, tail.
  repeat split; try done.
  - destruct Hsent as [[Hlen _] | (one & -> & ->)]; [done|]. by simpl.
  - intros Hlen. destruct Hsent as [[_ ->] | (one & [= _ ->] & _)]; [done|].
    simpl in Hlen. lia.
Qed.

(** ** Clean-up at the end of a format selection *)

(** The download stage ends cleaned up whenever [run_spotdl] returns
    and the notice it has to give on a failed download is accepted. *)
Lemma download_stage_cleans w user_id selected record st files st1 ev1 :
  pending_downloads st !! user_id = Some record →
  edit_accepted w (downloading_text selected) Markdown →
  run_spotdl w (url record) selected (py "downloads") st =
    (Return files, st1, ev1) →
  (files = [] → edit_accepted w download_failed_text None) →
  (download_stage w user_id selected st).1.2 = cleaned user_id st1.
Proof.
  intros Hpending Hedit Hrun Hnotice.
  rewrite (download_stage_eq _ _ _ _ _ _ _ _ Hpending Hedit Hrun).
  destruct files as [|file_path files]; simpl in *.
  - unfold edit_accepted in Hnotice. by rewrite Hnotice.
  - destruct (send_stage_eq w user_id selected (file_path :: files) st1)
      as (r & sent & tail & -> & _); done.
Qed.

(** With [run_spotdl] returning and that notice accepted, the download
    directory is gone at the end of the handler, however the download
    and the sending went. *)
Lemma button_handler_removes_download_dir
    w user_id selected record st files st1 ev1 :
  pending_downloads st !! user_id = Some record →
  selected ∈ SUPPORTED_FORMATS →
  edit_accepted w (downloading_text selected) Markdown →
  run_spotdl w (url record) selected (py "downloads") st =
    (Return files, st1, ev1) →
  (files = [] → edit_accepted w download_failed_text None) →
  fs (button_handler w user_id (py "format_" ++ selected) st).1.2
    !! py "downloads" = None.
Proof.
  intros Hpending Hformat Hedit Hrun Hnotice.
  rewrite button_handler_supported by eauto.
  pose proof (download_stage_cleans _ _ _ _ _ _ _ _
                Hpending Hedit Hrun Hnotice) as Hend.
  destruct (download_stage w user_id selected st) as [[r st'] events].
  simpl in *. rewrite Hend. apply lookup_delete_eq.
Qed.

(** C1, as amended. A user with a pending download who selects one of
    the supported formats has the record removed by the end of the
    handler, whether the download fails, the files are sent or sending
    raises, as long as the handler gets that far: the notice that the
    download starts is accepted, [run_spotdl] returns (its process
    starts and its output is text) and, if it returns no file, the
    notice that the download failed is accepted. *)
Theorem supported_selection_removes_record
    w user_id selected record st files st1 ev1 :
  pending_downloads st !! user_id = Some record →
  selected ∈ SUPPORTED_FORMATS →
  edit_accepted w (downloading_text selected) Markdown →
  run_spotdl w (url record) selected (py "downloads") st =
    (Return files, st1, ev1) →
  (files = [] → edit_accepted w download_failed_text None) →
  pending_downloads
    (button_handler w user_id (py "format_" ++ selected) st).1.2
    !! user_id = None.
Proof.
  intros Hpending Hformat Hedit Hrun Hnotice.
  rewrite button_handler_supported by eauto.
  pose proof (download_stage_cleans _ _ _ _ _ _ _ _
                Hpending Hedit Hrun Hnotice) as Hend.
  destruct (download_stage w user_id selected st) as [[r st'] events].
  simpl in *. rewrite Hend. apply lookup_delete_eq.
Qed.

(** C1, as stated, fails: a selection [format_wav] is a callback whose
    data starts with [format_], and it leaves the record of the user in
    place. *)
Lemma format_selection_can_keep_record :
  ¬ (∀ w user_id data st,
       is_Some (pending_downloads st !! user_id) →
       startswith data (py "format_") = true →
       pending_downloads (button_handler w user_id data st).1.2 !! user_id
       = None).
Proof.
  intros Hclaim.
  specialize (Hclaim Runs.download_fails 7 (py "format_wav") Runs.waiting).
  assert (is_Some (pending_downloads Runs.waiting !! 7)) as Hknown
    by (by eexists).
  specialize (Hclaim Hknown eq_refl).
  change (py "format_wav") with (py "format_" ++ py "wav") in Hclaim.
  rewrite button_handler_unsupported in Hclaim; [done..|].
  unfold SUPPORTED_FORMATS. rewrite !elem_of_cons, elem_of_nil.
  by intros [|[|[|[|]]]].
Qed.

(** C9 fails on this run: the download fails, the edit that says so is
    refused with a [BadRequest] that [safe_edit_text] raises again, and
    the handler ends with the directory [downloads] still on disk (and
    the record of the user still pending). *)
Theorem lost_notice_keeps_download_dir :
  let out := button_handler Runs.notice_lost 7 (py "format_mp3") Runs.waiting in
  out.1.1 = Raise (BadRequest (py "Message to edit not found")) ∧
  fs out.1.2 !! py "downloads" = Some (Directory [] []) ∧
  pending_downloads out.1.2 !! 7 = Some {| url := Runs.track |} ∧
  out.2 =
    [Answer None None;
     EditMessageText (downloading_text (py "mp3")) Markdown;
     SubprocessRun
       (spotdl_command Runs.track (py "mp3") (py "downloads")) 300;
     EditMessageText download_failed_text None].
Proof. vm_compute. done. Qed.

(** ** The theorems at work on concrete runs *)

(** A second submission by user 7, an album URI with blanks around it,
    replaces the track that was pending. *)
Lemma handle_message_overwrites_witness :
  is_spotify_url (strip (py "  spotify:album:1DFixLWuPkv3KT3TnV35m3 ")) ∧
  pending_downloads
    (handle_message 7 (py "  spotify:album:1DFixLWuPkv3KT3TnV35m3 ")
       Runs.waiting).1.2 !! 7
  = Some {| url := py "spotify:album:1DFixLWuPkv3KT3TnV35m3" |}.
Proof.
  assert (is_spotify_url
            (strip (py "  spotify:album:1DFixLWuPkv3KT3TnV35m3 "))) as Hurl.
  { apply is_spotify_url_spec. reflexivity. }
  split; [exact Hurl|].
  exact (proj1 (handle_message_overwrites 7 _ Runs.waiting Hurl)).
Defined.

(** C2 on a link with two blanks before it and a line feed after it:
    the record holds the link alone, the reply has the four buttons. *)
Lemma handle_message_accepts_iff_spotify_url_witness :
  handle_message 7 ([32; 32]%N ++ Sessions.album_link ++ [10]%N)
    Sessions.fresh =
  (Return tt,
   {| pending_downloads := {[ 7 := {| url := Sessions.album_link |} ]};
      fs := ∅ |},
   [ReplyText
      ([0x1f3b5]%N ++ py " *Choose your preferred audio format:*")
      (Some
         [[ {| button_text := py "MP3"; callback_data := py "format_mp3" |};
            {| button_text := py "M4A"; callback_data := py "format_m4a" |};
            {| button_text := py "FLAC"; callback_data := py "format_flac" |};
            {| button_text := py "OPUS"; callback_data := py "format_opus" |}
         ]])
      (Some (py "Markdown"))]).
Proof.
  destruct (handle_message_accepts_iff_spotify_url 7
              ([32; 32]%N ++ Sessions.album_link ++ [10]%N) Sessions.fresh)
    as (message & Hmessage & [[_ Hrun] | [Hnot _]]);
    apply stripped_of_unique in Hmessage; subst message.
  - rewrite Hrun. reflexivity.
  - destruct Hnot. apply is_spotify_url_spec. reflexivity.
Defined.

(** C6, as stated, fails: a link with a blank before it does not start
    with any of the prefixes, and [handle_message] stores it all the
    same, stripped. *)
Lemma padded_link_is_stored :
  ¬ (∀ user_id text st,
       ¬ is_spotify_url text →
       pending_downloads (handle_message user_id text st).1.2
       = pending_downloads st).
Proof.
  intros Hclaim.
  specialize (Hclaim 7 ([32]%N ++ Runs.track) Sessions.fresh).
  assert (¬ is_spotify_url ([32]%N ++ Runs.track)) as Hraw.
  { intros Hurl%is_spotify_url_spec. discriminate Hurl. }
  apply Hclaim in Hraw. apply (f_equal (fun m => m !! 7)) in Hraw.
  discriminate Hraw.
Qed.

(** A greeting between blanks is no Spotify URL and changes nothing. *)
Lemma handle_message_invalid_keeps_pending_witness :
  stripped_of (py "  hello there ") (py "hello there") ∧
  ¬ is_spotify_url (py "hello there") ∧
  (handle_message 7 (py "  hello there ") Runs.waiting).1.2 = Runs.waiting.
Proof.
  assert (stripped_of (py "  hello there ") (py "hello there")) as Hmessage
    by exact (stripped_of_strip (py "  hello there ")).
  assert (¬ is_spotify_url (py "hello there")) as Hurl.
  { intros Hurl%is_spotify_url_spec. discriminate Hurl. }
  split; [exact Hmessage|]. split; [exact Hurl|].
  exact (proj1 (handle_message_invalid_keeps_pending 7 _ _ Runs.waiting
                  Hmessage Hurl)).
Defined.

(** C7, as stated, fails: the downloader exits with code 1 and its
    error output is no text; [subprocess.run] raises
    [UnicodeDecodeError], which [run_spotdl] does not catch. *)
Lemma run_spotdl_raises_on_garbled_failure :
  ¬ (∀ w url audio_format download_dir st out disk returncode,
       spawn w (spotdl_command url audio_format download_dir)
         (prepared download_dir (fs st)) = (out, disk) →
       exit_code out = Some returncode →
       returncode ≠ 0 →
       ∃ st' events,
         run_spotdl w url audio_format download_dir st =
         (Return [], st', events)).
Proof.
  intros Hclaim.
  destruct (Hclaim Failures.garbled_failure Runs.track (py "mp3")
              (py "downloads") Runs.waiting _ _ 1 eq_refl eq_refl)
    as (st' & events & Hrun); [lia|].
  rewrite run_spotdl_eq in Hrun. discriminate Hrun.
Qed.

(** The downloader exits with code 1, in plain text: the empty list. *)
Lemma run_spotdl_empty_on_failure_witness :
  (run_spotdl Runs.download_fails Runs.track (py "mp3") (py "downloads")
     Runs.waiting).1.1 = Return [].
Proof.
  destruct (run_spotdl_empty_on_failure Runs.download_fails Runs.track
              (py "mp3") (py "downloads") Runs.waiting (Completed 1 [])
              {[ py "downloads" := Directory [] [] ]})
    as [Hreturns _]; [discriminate | reflexivity |].
  destruct Hreturns as (files & Hrun & Hempty); [right; by exists 1, []|].
  rewrite Hrun. simpl. f_equal. apply Hempty.
  right. exists 1, []. split; [reflexivity | lia].
Defined.

(** The album run: the track in the sub-directory is returned under its
    joined path. *)
Lemma run_spotdl_collects_witness :
  ∃ files,
    (run_spotdl Runs.downloads_album Runs.track (py "mp3") (py "downloads")
       Runs.waiting).1.1 = Return files ∧
    py "downloads/Artist/One.mp3" ∈ files.
Proof.
  destruct (run_spotdl_collects Runs.downloads_album Runs.track (py "mp3")
              (py "downloads") Runs.waiting _ _ eq_refl)
    as (files & Hrun & Hfiles).
  exists files. rewrite Hrun. split; [reflexivity|].
  apply Hfiles.
  exists Runs.album, (join (py "downloads") (py "Artist")), (py "One.mp3").
  split; [reflexivity|]. split.
  - apply found_below with (py "Artist")
      (Directory [py "One.mp3"; py "Two.mp3"; py "One.lrc"] []).
    + apply list_elem_of_here.
    + apply found_here. apply list_elem_of_here.
  - split; [by exists (py "One") | reflexivity].
Defined.

(** [format_wav] for the waiting user 7. *)
Lemma button_handler_rejects_unknown_format_witness :
  button_handler Runs.download_fails 7 (py "format_wav") Runs.waiting =
  (Return tt, Runs.waiting,
   [Answer None None; EditMessageText invalid_format_text None]).
Proof.
  apply (button_handler_rejects_unknown_format Runs.download_fails 7
           (py "wav") Runs.waiting).
  - by eexists.
  - discriminate.
  - discriminate.
  - discriminate.
  - discriminate.
Defined.

(** The album run yields two files, sent as one document. *)
Lemma button_handler_zips_iff_several_witness :
  ∃ r st' sent tail,
    button_handler Runs.downloads_album 7 (py "format_mp3") Runs.waiting =
      (r, st',
       [Answer None None;
        EditMessageText (downloading_text (py "mp3")) Markdown;
        SubprocessRun
          (spotdl_command Runs.track (py "mp3") (py "downloads")) 300;
        sent] ++ tail) ∧
    is_document sent = true.
Proof.
  assert (run_spotdl Runs.downloads_album Runs.track (py "mp3")
            (py "downloads") Runs.waiting =
          (Return [py "downloads/Artist/One.mp3";
                   py "downloads/Artist/Two.mp3"],
           {| pending_downloads := pending_downloads Runs.waiting;
              fs := {[ py "downloads" := Runs.album ]} |},
           [SubprocessRun
              (spotdl_command Runs.track (py "mp3") (py "downloads")) 300]))
    as Hran.
  { rewrite run_spotdl_eq. reflexivity. }
  destruct (button_handler_zips_iff_several Runs.downloads_album 7 (py "mp3")
              {| url := Runs.track |} Runs.waiting _ _ _
              eq_refl (list_elem_of_here _ _) eq_refl Hran)
    as (r & st' & sent & tail & Hrun & _ & _ & Hdocument).
  - discriminate.
  - exists r, st', sent, tail. split; [exact Hrun|].
    apply Hdocument. simpl. lia.
Defined.

(** A failed download of a supported format, its notices accepted:
    user 7 is no longer pending. *)
Lemma supported_selection_removes_record_witness :
  pending_downloads Runs.waiting !! 7 = Some {| url := Runs.track |} ∧
  pending_downloads
    (button_handler Runs.download_fails 7 (py "format_mp3") Runs.waiting).1.2
    !! 7 = None.
Proof.
  split; [reflexivity|].
  apply (supported_selection_removes_record Runs.download_fails 7 (py "mp3")
           {| url := Runs.track |} Runs.waiting []
           {| pending_downloads := pending_downloads Runs.waiting;
              fs := {[ py "downloads" := Directory [] [] ]} |}
           [SubprocessRun
              (spotdl_command Runs.track (py "mp3") (py "downloads")) 300]).
  - reflexivity.
  - apply list_elem_of_here.
  - reflexivity.
  - rewrite run_spotdl_eq. reflexivity.
  - intros _. reflexivity.
Defined.

(** * Further properties of the handlers *)

(** ** Substrings and [safe_edit_text] *)

Lemma contains_spec (sub s : str) :
  contains sub s = true ↔ ∃ pre post, s = pre ++ sub ++ post.
Proof.
  induction s as [|c s IH]; simpl.
  - rewrite orb_false_r, startswith_prefix. split.
    + intros [rest ->]. by exists [], rest.
    + intros (pre & post & H). symmetry in H.
      apply app_eq_nil in H as [_ H]. apply app_eq_nil in H as [-> _].
      by exists [].
  - rewrite orb_true_iff, startswith_prefix, IH. split.
    + intros [[rest ->] | (pre & post & ->)].
      * by exists [], rest.
      * by exists (c :: pre), post.
    + intros ([|c' pre] & post & H).
      * left. by exists post.
      * injection H as _ ->. right. by exists pre, post.
Qed.

(** X1. [safe_edit_text] issues the edit and nothing else, leaves the state
    alone, and returns normally exactly when the edit is accepted or is
    refused with a [BadRequest] whose text contains "Message is not
    modified"; anything else the edit raises comes out unchanged. *)
Theorem safe_edit_text_swallows_only_duplicates w message_text parse_mode st :
  ∃ r,
    safe_edit_text w message_text parse_mode st =
      (r, st, [EditMessageText message_text parse_mode]) ∧
    (r = Return tt ↔
     edit_message_text w message_text parse_mode = None ∨
     ∃ pre post,
       edit_message_text w message_text parse_mode =
       Some (BadRequest (pre ++ py "Message is not modified" ++ post))) ∧
    (∀ e, r = Raise e →
          edit_message_text w message_text parse_mode = Some e).
Proof.
  rewrite safe_edit_text_eq. eexists. split; [reflexivity|].
  unfold edit_result.
  destruct (edit_message_text w message_text parse_mode)
    as [[e| | | | | | | |]|]; try (split; [split; [done | by intros [|(?&?&?)]]
                                    | by intros ? [= <-]]).
  - destruct (contains (py "Message is not modified") e) eqn:Hdup.
    + apply contains_spec in Hdup as (pre & post & ->).
      split; [|done]. split; [|done]. intros _. right. by exists pre, post.
    + split; [|by intros ? [= <-]]. split; [done|].
      intros [|(pre & post & Heq)]; [done|].
      assert (e = pre ++ py "Message is not modified" ++ post) as ->
        by congruence.
      assert (contains (py "Message is not modified")
                (pre ++ py "Message is not modified" ++ post) = true)
        as Hin by (apply contains_spec; by exists pre, post).
      congruence.
  - split; [|done]. split; [by left | done].
Qed.

(** ** The branches of [button_handler] *)

Lemma button_handler_help w user_id st :
  button_handler w user_id (py "help") st =
  (edit_result (edit_message_text w help_menu_text Markdown), st,
   [Answer None None; EditMessageText help_menu_text Markdown]).
Proof.
  unfold button_handler.
  change (str_eqb (py "help") (py "help")) with true. cbv iota.
  unfold io_bind, emit. by rewrite safe_edit_text_eq.
Qed.

Lemma button_handler_status w user_id st :
  button_handler w user_id (py "status") st =
  (edit_result (edit_message_text w operational_text None), st,
   [Answer None None; EditMessageText operational_text None]).
Proof.
  unfold button_handler.
  change (str_eqb (py "status") (py "help")) with false.
  change (str_eqb (py "status") (py "status")) with true. cbv iota.
  unfold io_bind, emit. by rewrite safe_edit_text_eq.
Qed.

Lemma button_handler_unknown w user_id data st :
  data ≠ py "help" → data ≠ py "status" →
  startswith data (py "format_") = false →
  button_handler w user_id data st =
  (Return tt, st,
   [Answer None None; Answer (Some (py "Unknown action.")) (Some true)]).
Proof.
  intros Hhelp Hstatus Hformat. unfold button_handler, str_eqb.
  rewrite (bool_decide_eq_false_2 _ Hhelp).
  rewrite (bool_decide_eq_false_2 _ Hstatus).
  by rewrite Hformat.
Qed.

Lemma button_handler_no_pending w user_id selected st :
  pending_downloads st !! user_id = None →
  button_handler w user_id (py "format_" ++ selected) st =
  (edit_result (edit_message_text w no_pending_text None), st,
   [Answer None None; EditMessageText no_pending_text None]).
Proof.
  intros Hnone. unfold button_handler.
  rewrite format_not_help, format_not_status, startswith_app.
  unfold io_bind, emit, is_pending.
  rewrite bool_decide_eq_false_2 by (rewrite Hnone; by intros [??]).
  cbn [negb]. by rewrite safe_edit_text_eq.
Qed.

(** ** Sending: [try], [except Exception], [finally] *)

Lemma send_files_eq w selected files st :
  files ≠ [] →
  ∃ sent,
    is_upload sent = true ∧
    send_files w selected files st =
    (match answer_to w sent with
     | None => Return tt
     | Some e => Raise e
     end, st, [sent]).
Proof.
  intros Hfiles. unfold send_files.
  destruct files as [|file_path [|more files]]; [done| |].
  - cbn [length Nat.ltb Nat.leb]. unfold io_bind, index, io_ret, request.
    cbn [lookup list_lookup].
    exists (ReplyAudio file_path (audio_caption selected) Markdown).
    split; [done|]. cbn [answer_to]. by destruct (send_audio w _ _ _).
  - change (1 <? length (file_path :: more :: files))%nat with true.
    cbv iota. unfold request.
    set (all := file_path :: more :: files).
    exists (ReplyDocument (zip_filename selected) (zipped w all)
              (zip_caption (length all) selected) Markdown).
    split; [done|]. cbn [answer_to]. unfold zipped.
    by destruct (send_document w _ _ _ _).
Qed.

Lemma send_stage_outcome w user_id selected files st :
  files ≠ [] →
  ∃ sent,
    is_upload sent = true ∧
    send_stage w user_id selected files st =
    match answer_to w sent with
    | None => (Return tt, cleaned user_id st, [sent])
    | Some e =>
        if is_Exception e
        then (Return tt, cleaned user_id st,
              [sent; ReplyText send_failed_text None None])
        else (Raise e, cleaned user_id st, [sent])
    end.
Proof.
  intros Hfiles.
  destruct (send_files_eq w selected files st Hfiles) as (sent & Hup & Hsend).
  exists sent. split; [done|].
  unfold send_stage, try_finally, try_except. rewrite Hsend.
  destruct (answer_to w sent) as [e|].
  - destruct (is_Exception e); unfold emit; by rewrite cleanup_eq.
  - by rewrite cleanup_eq.
Qed.


(** ** One summary of [button_handler] for every callback *)

Lemma edit_result_raise answer e :
  edit_result answer = Raise e → answer = Some e.
Proof.
  unfold edit_result. destruct answer as [[m| | | | | | | |]|]; try by intros [= <-].
  destruct (contains _ m); [done | by intros [= <-]].
Qed.

Ltac in_events :=
  repeat match goal with
    | H : _ ∈ _ :: _ |- _ => apply elem_of_cons in H as [H | H]
    | H : _ ∈ [] |- _ => by apply elem_of_nil in H
    | H : SubprocessRun _ _ = SubprocessRun _ _ |- _ =>
        injection H as -> ->
    | H : SubprocessRun _ _ = ?e, U : is_upload ?e = true |- _ =>
        rewrite <- H in U; discriminate U
    | H : SubprocessRun _ _ = _ |- _ => discriminate H
    end.

Lemma download_stage_summary w user_id selected record st :
  pending_downloads st !! user_id = Some record →
  ∃ r st' events,
    download_stage w user_id selected st = (r, st', events) ∧
    (pending_downloads st' = pending_downloads st ∨
     pending_downloads st' = delete user_id (pending_downloads st)) ∧
    (∀ command timeout,
       SubprocessRun command timeout ∈ events →
       command = spotdl_command (url record) selected (py "downloads") ∧
       timeout = 300) ∧
    (∀ e, r = Raise e →
          (∃ request, request ∈ events ∧ answer_to w request = Some e) ∨
          (run_spotdl w (url record) selected (py "downloads") st).1.1
          = Raise e).
Proof.
  intros Hpending. unfold download_stage, io_bind, pending_url.
  rewrite Hpending, safe_edit_text_eq.
  set (notice := EditMessageText (downloading_text selected) Markdown).
  destruct (edit_result
              (edit_message_text w (downloading_text selected) Markdown))
    as [[]|e] eqn:Hnotice.
  - destruct (run_spotdl_shape w (url record) selected (py "downloads") st)
      as (ran & disk & Hrun).
    rewrite Hrun.
    set (st1 := {| pending_downloads := pending_downloads st; fs := disk |}).
    destruct ran as [[|file_path files]|e].
    + rewrite safe_edit_text_eq.
      destruct (edit_result (edit_message_text w download_failed_text None))
        as [[]|e] eqn:Hfailed.
      * rewrite cleanup_eq. eexists _, _, _. split; [reflexivity|].
        split; [by right|]. split; [|done].
        intros command timeout Hin. simpl in Hin. by in_events.
      * eexists _, _, _. split; [reflexivity|].
        split; [by left|]. split.
        -- intros command timeout Hin. simpl in Hin. by in_events.
        -- intros ? [= <-]. apply edit_result_raise in Hfailed. left.
           exists (EditMessageText download_failed_text None).
           split; [|done]. simpl. rewrite !elem_of_cons. auto.
    + destruct (send_stage_outcome w user_id selected (file_path :: files)
                  st1) as (sent & Hup & ->); [done|].
      destruct (answer_to w sent) as [e|] eqn:Hanswer;
        [destruct (is_Exception e)|];
        (eexists _, _, _; split; [reflexivity|];
         split; [by right|]; split;
         [intros command timeout Hin; simpl in Hin; by in_events|]);
        try done.
      intros ? [= <-]. left. exists sent. split; [|exact Hanswer].
      simpl. rewrite !elem_of_cons. auto.
    + eexists _, _, _. split; [reflexivity|]. split; [by left|]. split.
      * intros command timeout Hin. simpl in Hin. by in_events.
      * intros ? [= <-]. by right.
  - eexists _, _, _. split; [reflexivity|]. split; [by left|]. split.
    + intros command timeout Hin. simpl in Hin. by in_events.
    + intros ? [= <-]. apply edit_result_raise in Hnotice. left.
      exists notice. split; [|done]. apply list_elem_of_here.
Qed.

Lemma button_handler_summary w user_id data st :
  ∃ r st' events,
    button_handler w user_id data st = (r, st', events) ∧
    (pending_downloads st' = pending_downloads st ∨
     pending_downloads st' = delete user_id (pending_downloads st)) ∧
    (∀ command timeout,
       SubprocessRun command timeout ∈ events →
       ∃ selected record,
         data = py "format_" ++ selected ∧
         selected ∈ SUPPORTED_FORMATS ∧
         pending_downloads st !! user_id = Some record ∧
         command = spotdl_command (url record) selected (py "downloads") ∧
         timeout = 300) ∧
    (∀ e, r = Raise e →
          (∃ request, request ∈ events ∧ answer_to w request = Some e) ∨
          (∃ selected record,
             data = py "format_" ++ selected ∧
             selected ∈ SUPPORTED_FORMATS ∧
             pending_downloads st !! user_id = Some record ∧
             (run_spotdl w (url record) selected (py "downloads") st).1.1
             = Raise e)).
Proof.
  assert (∀ text parse_mode,
            ∃ r st' events,
              (edit_result (edit_message_text w text parse_mode), st,
               [Answer None None; EditMessageText text parse_mode])
              = (r, st', events) ∧
              (pending_downloads st' = pending_downloads st ∨
               pending_downloads st' = delete user_id (pending_downloads st)) ∧
              (∀ command timeout,
                 SubprocessRun command timeout ∈ events →
                 ∃ selected record,
                   data = py "format_" ++ selected ∧
                   selected ∈ SUPPORTED_FORMATS ∧
                   pending_downloads st !! user_id = Some record ∧
                   command =
                     spotdl_command (url record) selected (py "downloads") ∧
                   timeout = 300) ∧
              (∀ e, r = Raise e →
                    (∃ request,
                       request ∈ events ∧ answer_to w request = Some e) ∨
                    (∃ selected record,
                       data = py "format_" ++ selected ∧
                       selected ∈ SUPPORTED_FORMATS ∧
                       pending_downloads st !! user_id = Some record ∧
                       (run_spotdl w (url record) selected (py "downloads")
                          st).1.1 = Raise e)))
    as Hedit.
  { intros text parse_mode. eexists _, _, _. split; [reflexivity|].
    split; [by left|]. split.
    - intros command timeout Hin. by in_events.
    - intros e He%edit_result_raise. left.
      exists (EditMessageText text parse_mode). split; [|done].
      rewrite !elem_of_cons. auto. }
  destruct (decide (data = py "help")) as [->|Hhelp].
  { rewrite button_handler_help. apply Hedit. }
  destruct (decide (data = py "status")) as [->|Hstatus].
  { rewrite button_handler_status. apply Hedit. }
  destruct (startswith data (py "format_")) eqn:Hformat.
  - apply startswith_inv in Hformat as [selected ->].
    destruct (pending_downloads st !! user_id) as [record|] eqn:Hpending.
    + destruct (decide (selected ∈ SUPPORTED_FORMATS)) as [Hin|Hout].
      * rewrite button_handler_supported by (rewrite ?Hpending; eauto).
        destruct (download_stage_summary w user_id selected record st Hpending)
          as (r & st' & events & -> & Hstate & Hspawn & Hraise).
        exists r, st', (Answer None None :: events).
        split; [done|]. split; [done|]. split.
        -- intros command timeout [?|Hev]%elem_of_cons; [done|].
           destruct (Hspawn _ _ Hev) as [-> ->]. by exists selected, record.
        -- intros e He.
           destruct (Hraise e He) as [(request & Hev & Hanswer) | Hrun].
           ++ left. exists request.
              split; [by apply list_elem_of_further | done].
           ++ right. by exists selected, record.
      * rewrite button_handler_unsupported by (rewrite ?Hpending; eauto).
        apply Hedit.
    + rewrite button_handler_no_pending by done. apply Hedit.
  - rewrite button_handler_unknown by done.
    eexists _, _, _. split; [reflexivity|]. split; [by left|]. split.
    + intros command timeout Hin. by in_events.
    + done.
Qed.

(** ** What [button_handler] never does *)

(** X3. [button_handler] never touches the record of another user, and the
    record of the user who pressed is either kept as it is or removed:
    no callback creates or changes a record. *)
Theorem button_handler_keeps_other_users w user_id data st other :
  other ≠ user_id →
  let after := pending_downloads (button_handler w user_id data st).1.2 in
  after !! other = pending_downloads st !! other ∧
  (after !! user_id = pending_downloads st !! user_id ∨
   after !! user_id = None).
Proof.
  intros Hother.
  destruct (button_handler_summary w user_id data st)
    as (r & st' & events & -> & [Hkept | Hpopped] & _); simpl.
  - rewrite Hkept. by split; [|left].
  - rewrite Hpopped.
    split; [by apply lookup_delete_ne | right; apply lookup_delete_eq].
Qed.

(** X4. The only process [button_handler] ever starts is the downloader,
    with the 300-second timeout, for a callback [format_X] with [X] one
    of the supported formats, on the URL that is pending for the user
    who pressed, writing to [downloads]. *)
Theorem button_handler_spawns_only_spotdl w user_id data st command timeout :
  SubprocessRun command timeout ∈ (button_handler w user_id data st).2 →
  ∃ selected record,
    data = py "format_" ++ selected ∧
    selected ∈ SUPPORTED_FORMATS ∧
    pending_downloads st !! user_id = Some record ∧
    command = spotdl_command (url record) selected (py "downloads") ∧
    timeout = 300.
Proof.
  destruct (button_handler_summary w user_id data st)
    as (r & st' & events & -> & _ & Hspawn & _). apply Hspawn.
Qed.

(** X5. The look-ups of [button_handler] itself never fail: an
    exception that leaves it (no [IndexError] of the split, no
    [KeyError] of the dictionary among them) comes from outside.  It is
    the one Telegram raised on a request the handler made, or the one
    that left [run_spotdl], called for a supported format on the URL
    pending for the user. *)
Theorem button_handler_raises_only_from_outside w user_id data st e :
  (button_handler w user_id data st).1.1 = Raise e →
  (∃ request,
     request ∈ (button_handler w user_id data st).2 ∧
     answer_to w request = Some e) ∨
  (∃ selected record,
     data = py "format_" ++ selected ∧
     selected ∈ SUPPORTED_FORMATS ∧
     pending_downloads st !! user_id = Some record ∧
     (run_spotdl w (url record) selected (py "downloads") st).1.1 = Raise e).
Proof.
  destruct (button_handler_summary w user_id data st)
    as (r & st' & events & -> & _ & _ & Hraise). apply Hraise.
Qed.

(** ** Keyboards and the callbacks they produce *)

(** X6. Both buttons of the keyboard [start] sends are understood by
    [button_handler]: pressing one edits the message to a fixed text,
    is never answered with "Unknown action." and changes nothing. *)
Theorem start_keyboard_is_handled w user_id st b :
  b ∈ concat start_keyboard →
  ∃ text parse_mode,
    button_handler w user_id (callback_data b) st =
    (edit_result (edit_message_text w text parse_mode), st,
     [Answer None None; EditMessageText text parse_mode]).
Proof.
  simpl. rewrite !elem_of_cons, elem_of_nil. intros [-> | [-> | []]]; simpl.
  - eexists _, _. apply button_handler_help.
  - eexists _, _. apply button_handler_status.
Qed.

Lemma download_stage_spawns w user_id selected record st :
  pending_downloads st !! user_id = Some record →
  edit_accepted w (downloading_text selected) Markdown →
  SubprocessRun (spotdl_command (url record) selected (py "downloads")) 300
    ∈ (download_stage w user_id selected st).2.
Proof.
  intros Hpending Hedit. unfold edit_accepted in Hedit.
  unfold download_stage, io_bind, pending_url.
  rewrite Hpending, safe_edit_text_eq, Hedit.
  destruct (run_spotdl_shape w (url record) selected (py "downloads") st)
    as (ran & disk & ->).
  destruct ran as [[|file_path files]|e].
  - rewrite safe_edit_text_eq.
    destruct (edit_result (edit_message_text w download_failed_text None));
      [destruct (cleanup user_id _) as [[r st2] ev2]|];
      simpl; rewrite !elem_of_cons; auto.
  - destruct (send_stage w user_id selected (file_path :: files) _)
      as [[r st2] ev2]. simpl. rewrite !elem_of_cons. auto.
  - simpl. rewrite !elem_of_cons. auto.
Qed.

(** X7. The keyboard [handle_message] offers fits [button_handler]: after a
    valid submission, each of its buttons carries [format_X] for a
    supported [X], labelled with [X] in upper case, and pressing it
    (with the notice that the download starts accepted) runs the
    downloader on the submitted URL in that format. *)
Theorem offered_button_starts_download w user_id text st b :
  is_spotify_url (strip text) →
  b ∈ concat format_keyboard →
  ∃ selected,
    selected ∈ SUPPORTED_FORMATS ∧
    callback_data b = py "format_" ++ selected ∧
    button_text b = upper selected ∧
    (edit_accepted w (downloading_text selected) Markdown →
     SubprocessRun
       (spotdl_command (strip text) selected (py "downloads")) 300
     ∈ (button_handler w user_id (callback_data b)
          (handle_message user_id text st).1.2).2).
Proof.
  intros Hurl Hb. rewrite (handle_message_valid _ _ _ Hurl). cbn [fst snd].
  assert (∃ selected,
            selected ∈ SUPPORTED_FORMATS ∧
            b = {| button_text := upper selected;
                   callback_data := py "format_" ++ selected |})
    as (selected & Hin & ->).
  { unfold format_keyboard in Hb. cbn [concat] in Hb.
    rewrite app_nil_r in Hb.
    apply list_elem_of_fmap in Hb as (selected & -> & Hin). by exists selected. }
  exists selected. split; [done|]. split; [done|]. split; [done|].
  intros Hedit. cbn [callback_data].
  assert (pending_downloads (submitted user_id (strip text) st) !! user_id
          = Some {| url := strip text |}) as Hpending
    by apply lookup_insert_eq.
  rewrite button_handler_supported by (rewrite ?Hpending; eauto).
  pose proof (download_stage_spawns w user_id selected _ _ Hpending Hedit)
    as Hspawn.
  destruct (download_stage w user_id selected _) as [[r st'] events].
  by apply list_elem_of_further.
Qed.

(** X8. A pending download is used once: after a selection of a
    supported format for which [run_spotdl] returns and whose notices
    are accepted, a further format selection by the same user, whatever
    the format, is answered with "No pending downloads." and starts
    nothing. *)
Theorem pending_download_is_consumed_once
    w w' user_id selected again record st files st1 ev1 :
  pending_downloads st !! user_id = Some record →
  selected ∈ SUPPORTED_FORMATS →
  edit_accepted w (downloading_text selected) Markdown →
  run_spotdl w (url record) selected (py "downloads") st =
    (Return files, st1, ev1) →
  (files = [] → edit_accepted w download_failed_text None) →
  let st2 := (button_handler w user_id (py "format_" ++ selected) st).1.2 in
  button_handler w' user_id (py "format_" ++ again) st2 =
  (edit_result (edit_message_text w' no_pending_text None), st2,
   [Answer None None; EditMessageText no_pending_text None]).
Proof.
  intros Hpending Hformat Hedit Hrun Hnotice st2.
  apply button_handler_no_pending. subst st2.
  rewrite button_handler_supported by eauto.
  pose proof (download_stage_cleans _ _ _ _ _ _ _ _
                Hpending Hedit Hrun Hnotice) as Hend.
  destruct (download_stage w user_id selected st) as [[r st'] events].
  simpl in *. rewrite Hend. apply lookup_delete_eq.
Qed.

(** X9. A format selection by a user with nothing pending, whatever follows
    [format_], gets the notice to send a link first, and nothing else
    happens. *)
Theorem format_selection_needs_pending_download w user_id data st :
  startswith data (py "format_") = true →
  pending_downloads st !! user_id = None →
  button_handler w user_id data st =
  (edit_result (edit_message_text w no_pending_text None), st,
   [Answer None None; EditMessageText no_pending_text None]).
Proof.
  intros [selected ->]%startswith_inv Hnone.
  by apply button_handler_no_pending.
Qed.

(** ** The download directory and the paths [run_spotdl] returns *)

(** X10. What [download_dir] held before the call does not matter:
    [run_spotdl] wipes it, so neither its result nor the state it
    leaves depends on files of an earlier download. *)
Theorem run_spotdl_forgets_earlier_files
    w url audio_format download_dir downloads disk old :
  run_spotdl w url audio_format download_dir
    {| pending_downloads := downloads; fs := <[download_dir := old]> disk |}
  =
  run_spotdl w url audio_format download_dir
    {| pending_downloads := downloads; fs := delete download_dir disk |}.
Proof.
  rewrite !run_spotdl_eq. unfold prepared. cbn [fs pending_downloads].
  by rewrite insert_insert_eq, insert_delete_eq.
Qed.

Lemma join_ends a b : ∃ front, join a b = front ++ b.
Proof.
  unfold join. destruct (startswith b _); [by exists []|].
  destruct (_ || _); [by exists a|].
  exists (a ++ py "/"). by rewrite <- app_assoc.
Qed.

Lemma join_begins a b : plain_name b = true → ∃ back, join a b = a ++ back.
Proof.
  unfold plain_name, join. intros Hplain%negb_true_iff. rewrite Hplain.
  destruct (_ || _); eauto.
Qed.

(** X11. Every path [run_spotdl] returns ends with ["." + audio_format]. *)
Theorem run_spotdl_paths_have_extension
    w url audio_format download_dir st files st' events path :
  run_spotdl w url audio_format download_dir st = (Return files, st', events) →
  path ∈ files →
  has_extension audio_format path.
Proof.
  intros [-> | (d & _ & ->)]%run_spotdl_returned Hpath;
    [by apply elem_of_nil in Hpath|].
  apply elem_of_collect in Hpath
    as (root & dirs & names & name & _ & _ & [stem ->] & ->).
  destruct (join_ends root (stem ++ py "." ++ audio_format)) as [front ->].
  exists (front ++ stem). by rewrite <- app_assoc.
Qed.

Lemma plain_tree_files files subdirs name :
  plain_tree (Directory files subdirs) = true →
  name ∈ files → plain_name name = true.
Proof.
  simpl. intros [Hfiles _]%andb_true_iff Hin.
  rewrite forallb_forall in Hfiles. by apply Hfiles, list_elem_of_In.
Qed.

Lemma plain_tree_subdirs files subdirs sub_name sub :
  plain_tree (Directory files subdirs) = true →
  (sub_name, sub) ∈ subdirs →
  plain_name sub_name = true ∧ plain_tree sub = true.
Proof.
  simpl. intros [_ Hsubs]%andb_true_iff Hin.
  rewrite forallb_forall in Hsubs.
  apply list_elem_of_In, Hsubs in Hin. by apply andb_true_iff in Hin.
Qed.

Lemma found_below_top top d root name :
  found top d root name →
  plain_tree d = true →
  (∃ back, root = top ++ back) ∧ plain_name name = true.
Proof.
  induction 1 as [top [files subdirs] name Hname
                 | top [files subdirs] sub_name sub root name Hsub _ IH];
    intros Hplain.
  - split; [exists []; by rewrite app_nil_r|].
    by apply plain_tree_files with files subdirs.
  - destruct (plain_tree_subdirs _ _ _ _ Hplain Hsub) as [Hname Hsubtree].
    destruct (IH Hsubtree) as [[back ->] Hfile]. split; [|done].
    destruct (join_begins top sub_name Hname) as [mid ->].
    exists (mid ++ back). by rewrite <- app_assoc.
Qed.

(** X12. When the entry names the downloader leaves are plain (none begins
    with the separator, as on a real disk), every path [run_spotdl]
    returns lies under [download_dir]: it starts with it. *)
Theorem run_spotdl_paths_under_download_dir
    w url audio_format download_dir st files st' events d path :
  run_spotdl w url audio_format download_dir st = (Return files, st', events) →
  fs st' !! download_dir = Some d →
  plain_tree d = true →
  path ∈ files →
  ∃ back, path = download_dir ++ back.
Proof.
  intros [-> | (d' & Hd' & ->)]%run_spotdl_returned Hdir Hplain Hpath;
    [by apply elem_of_nil in Hpath|].
  assert (d' = d) as -> by congruence.
  apply elem_of_collect in Hpath
    as (root & dirs & names & name & Hin & Hname & _ & ->).
  pose proof (walk_found _ _ _ _ _ _ Hin Hname) as Hfound.
  destruct (found_below_top _ _ _ _ Hfound Hplain) as [[back ->] Hfile].
  destruct (join_begins (download_dir ++ back) name Hfile) as [rest ->].
  exists (back ++ rest). by rewrite <- app_assoc.
Qed.

(** ** Whitespace around a message, continued *)

(** X13. Whitespace before and after the text makes no difference to
    [handle_message]: the reply and the record stored are those of the
    text without it. *)
Theorem handle_message_ignores_outer_whitespace user_id ws text ws' st :
  blank ws → blank ws' →
  handle_message user_id (ws ++ text ++ ws') st =
  handle_message user_id text st.
Proof.
  intros Hws Hws'. unfold handle_message. by rewrite strip_blank.
Qed.

(** ** Runs of the bot *)

Lemma handle_message_accepts_or_not user_id text st :
  (is_spotify_url (strip text) ∧
   handle_message user_id text st =
     (Return tt, submitted user_id (strip text) st,
      [ReplyText choose_format_text (Some format_keyboard) Markdown]))
  ∨
  (¬ is_spotify_url (strip text) ∧
   handle_message user_id text st =
     (Return tt, st, [ReplyText invalid_url_text None None])).
Proof.
  destruct (existsb (fun prefix => startswith (strip text) prefix)
              valid_prefixes) eqn:Htest.
  - apply is_spotify_url_spec in Htest. left.
    split; [done | by apply handle_message_valid].
  - assert (¬ is_spotify_url (strip text)) as Hurl.
    { rewrite is_spotify_url_spec. by rewrite Htest. }
    right. split; [done | by apply handle_message_invalid].
Qed.

Lemma handle_message_keeps_urls_valid user_id text st :
  pending_urls_valid st →
  pending_urls_valid (handle_message user_id text st).1.2.
Proof.
  intros Hvalid.
  destruct (handle_message_accepts_or_not user_id text st)
    as [[Hurl ->] | [_ ->]]; [|done].
  intros other record. cbn [fst snd submitted pending_downloads].
  destruct (decide (other = user_id)) as [->|Hother].
  - rewrite lookup_insert_eq. intros [= <-]. cbn [url].
    split; [done | apply strip_idempotent].
  - rewrite lookup_insert_ne by done. apply Hvalid.
Qed.

Lemma dispatch_summary w u st :
  ∃ r st' events,
    dispatch w u st = (r, st', events) ∧
    (pending_urls_valid st → pending_urls_valid st') ∧
    (∀ other, other ≠ update_user u →
              pending_downloads st' !! other = pending_downloads st !! other) ∧
    (∀ command timeout,
       SubprocessRun command timeout ∈ events →
       ∃ selected record,
         selected ∈ SUPPORTED_FORMATS ∧
         pending_downloads st !! update_user u = Some record ∧
         command = spotdl_command (url record) selected (py "downloads") ∧
         timeout = 300).
Proof.
  destruct u as [user_id command | user_id text | user_id data
                | user_id command | user_id text];
    cbn [dispatch update_user].
  - (* a command: one fixed reply, or nothing *)
    assert (∃ events,
              (if str_eqb (lower command) (py "start") then start
               else if str_eqb (lower command) (py "help") then help_command
               else if str_eqb (lower command) (py "status")
                    then status_command
               else io_ret tt) st = (Return tt, st, events) ∧
              ∀ c t, SubprocessRun c t ∉ events) as (events & -> & Hnone).
    { repeat destruct (str_eqb (lower command) _);
        eexists; (split; [reflexivity|]); intros c t Hin; by in_events. }
    eexists _, _, _. split; [reflexivity|]. split; [done|]. split; [done|].
    intros c t Hin. by apply Hnone in Hin.
  - (* a text message *)
    pose proof (handle_message_keeps_urls_valid user_id text st) as Hvalid.
    destruct (handle_message_accepts_or_not user_id text st)
      as [[Hurl Heq] | [_ Heq]]; rewrite Heq in *;
      (eexists _, _, _; split; [reflexivity|]; split; [done|]; split;
       [|intros c t Hin; by in_events]).
    + intros other Hother. by apply lookup_insert_ne.
    + done.
  - (* a button *)
    destruct (button_handler_summary w user_id data st)
      as (r & st' & events & -> & Hstate & Hspawn & _).
    eexists _, _, _. split; [reflexivity|]. split; [|split].
    + intros Hvalid other record.
      destruct Hstate as [-> | ->]; [apply Hvalid|].
      intros [_ Hin]%lookup_delete_Some. by apply Hvalid in Hin.
    + intros other Hother. destruct Hstate as [-> | ->]; [done|].
      by apply lookup_delete_ne.
    + intros c t Hin.
      destruct (Hspawn c t Hin) as (selected & record & _ & ? & ? & ? & ?).
      by exists selected, record.
  - (* an edited command: [AttributeError], or no handler *)
    unfold raise, io_ret. destruct (registered command);
      (eexists _, _, _; split; [reflexivity|]; split; [done|];
       split; [done|]); intros c t Hin; by in_events.
  - (* an edited text: [AttributeError] *)
    unfold raise. eexists _, _, _. split; [reflexivity|]. split; [done|].
    split; [done|]. intros c t Hin. by in_events.
Qed.

Lemma run_polling_summary updates st :
  (pending_urls_valid st →
   pending_urls_valid (run_polling updates st).1 ∧
   ∀ command timeout,
     SubprocessRun command timeout ∈ (run_polling updates st).2 →
     ∃ link selected,
       is_spotify_url link ∧ strip link = link ∧
       selected ∈ SUPPORTED_FORMATS ∧
       command = spotdl_command link selected (py "downloads") ∧
       timeout = 300) ∧
  (∀ user_id,
     Forall (fun step => update_user step.2 ≠ user_id) updates →
     pending_downloads (run_polling updates st).1 !! user_id
     = pending_downloads st !! user_id).
Proof.
  revert st. induction updates as [|[w u] updates IH]; intros st.
  { split; [|done]. intros Hvalid. split; [done|].
    intros c t Hin. by apply elem_of_nil in Hin. }
  cbn [run_polling].
  destruct (dispatch_summary w u st)
    as (r & st1 & ev1 & -> & Hvalid1 & Hothers & Hspawn).
  destruct (IH st1) as [Hrest Hquiet].
  destruct (run_polling updates st1) as [st2 ev2]. cbn [fst snd] in *.
  split.
  - intros Hvalid. destruct (Hrest (Hvalid1 Hvalid)) as [Hvalid2 Hspawn2].
    split; [done|]. intros c t [Hin | Hin]%elem_of_app; [|by apply Hspawn2].
    destruct (Hspawn c t Hin) as (selected & record & ? & Hrecord & ? & ?).
    destruct (Hvalid _ _ Hrecord) as [? ?].
    by exists (url record), selected.
  - intros user_id [Huser Hrest']%Forall_cons. cbn [snd] in Huser.
    rewrite (Hquiet user_id Hrest'). by apply Hothers.
Qed.

(** X14. Started with an empty [pending_downloads], the bot only ever holds
    Spotify URLs in it: after any updates, met with any answers of the
    outside, every pending record holds a text that starts with one of
    the six prefixes and has no whitespace around it. *)
Theorem run_polling_keeps_urls_valid updates st :
  pending_downloads st = ∅ →
  pending_urls_valid (run_polling updates st).1.
Proof.
  intros Hempty. apply run_polling_summary.
  intros user_id record. by rewrite Hempty, lookup_empty.
Qed.

(** X15. Started with an empty [pending_downloads], every process the bot
    ever starts is the downloader, with the 300-second timeout, on a
    URL with one of the six Spotify prefixes, in one of the supported
    formats, writing to [downloads]. *)
Theorem run_polling_spawns_only_spotdl updates st command timeout :
  pending_downloads st = ∅ →
  SubprocessRun command timeout ∈ (run_polling updates st).2 →
  ∃ link selected,
    is_spotify_url link ∧ strip link = link ∧
    selected ∈ SUPPORTED_FORMATS ∧
    command = spotdl_command link selected (py "downloads") ∧
    timeout = 300.
Proof.
  intros Hempty. apply run_polling_summary.
  intros user_id record. by rewrite Hempty, lookup_empty.
Qed.

(** X16. Users do not interfere through [pending_downloads]: whatever the
    other users send or press, the record of a user who sends nothing
    stays as it is. *)
Theorem run_polling_isolates_users updates st user_id :
  Forall (fun step => update_user step.2 ≠ user_id) updates →
  pending_downloads (run_polling updates st).1 !! user_id
  = pending_downloads st !! user_id.
Proof. apply run_polling_summary. Qed.

(** ** A format selection from end to end *)

(** X17. The good case: the notice is accepted, [run_spotdl] returns files
    and Telegram accepts the upload.  The handler then returns normally
    having made exactly these requests: the acknowledgement, the notice,
    the downloader, one upload; and it has cleaned up. *)
Theorem accepted_upload_ends_selection
    w user_id selected record st files st1 ev1 :
  pending_downloads st !! user_id = Some record →
  selected ∈ SUPPORTED_FORMATS →
  edit_accepted w (downloading_text selected) Markdown →
  run_spotdl w (url record) selected (py "downloads") st =
    (Return files, st1, ev1) →
  files ≠ [] →
  (∀ request, is_upload request = true → answer_to w request = None) →
  ∃ sent,
    is_upload sent = true ∧
    button_handler w user_id (py "format_" ++ selected) st =
    (Return tt, cleaned user_id st1,
     Answer None None ::
     EditMessageText (downloading_text selected) Markdown ::
     ev1 ++ [sent]).
Proof.
  intros Hpending Hformat Hedit Hrun Hfiles Haccepts.
  rewrite button_handler_supported by eauto.
  rewrite (download_stage_eq _ _ _ _ _ _ _ _ Hpending Hedit Hrun).
  destruct (send_stage_outcome w user_id selected files st1 Hfiles)
    as (sent & Hup & Hsend).
  rewrite (Haccepts sent Hup) in Hsend.
  destruct files as [|file_path files]; [done|]. rewrite Hsend.
  by exists sent.
Qed.

(** X18. Whenever [run_spotdl] comes back without a file (timeout, failure
    exit, or no file of the requested format), nothing is uploaded: the
    only thing the handler does next is the edit to the notice that the
    download failed, and it cleans up if that edit is accepted. *)
Theorem empty_download_is_reported
    w user_id selected record st st1 ev1 :
  pending_downloads st !! user_id = Some record →
  selected ∈ SUPPORTED_FORMATS →
  edit_accepted w (downloading_text selected) Markdown →
  run_spotdl w (url record) selected (py "downloads") st =
    (Return [], st1, ev1) →
  ∃ r st',
    button_handler w user_id (py "format_" ++ selected) st =
    (r, st',
     Answer None None ::
     EditMessageText (downloading_text selected) Markdown ::
     ev1 ++ [EditMessageText download_failed_text None]) ∧
    (edit_accepted w download_failed_text None →
     r = Return tt ∧ st' = cleaned user_id st1).
Proof.
  intros Hpending Hformat Hedit Hrun.
  rewrite button_handler_supported by eauto.
  rewrite (download_stage_eq _ _ _ _ _ _ _ _ Hpending Hedit Hrun).
  eexists _, _. split; [reflexivity|].
  unfold edit_accepted. by intros ->.
Qed.

(** X19. [run_spotdl] is awaited outside any [try]: when it raises (the
    process does not start, or its output is no text), the exception
    leaves [button_handler] right there.  Nothing is sent after the
    notice that the download starts, no clean-up runs, and the record of
    the user is still pending. *)
Theorem raising_download_leaves_record_pending
    w user_id selected record st e st1 ev1 :
  pending_downloads st !! user_id = Some record →
  selected ∈ SUPPORTED_FORMATS →
  edit_accepted w (downloading_text selected) Markdown →
  run_spotdl w (url record) selected (py "downloads") st = (Raise e, st1, ev1) →
  button_handler w user_id (py "format_" ++ selected) st =
    (Raise e, st1,
     Answer None None ::
     EditMessageText (downloading_text selected) Markdown :: ev1) ∧
  pending_downloads st1 !! user_id = Some record.
Proof.
  intros Hpending Hformat Hedit Hrun. unfold edit_accepted in Hedit.
  rewrite button_handler_supported by eauto.
  unfold download_stage, io_bind, pending_url.
  rewrite Hpending, safe_edit_text_eq, Hedit, Hrun. split; [done|].
  destruct (run_spotdl_shape w (url record) selected (py "downloads") st)
    as (ran & disk & Hshape).
  rewrite Hshape in Hrun. by injection Hrun as _ <- _.
Qed.

(** ** The further properties on concrete sessions *)

Lemma album_run :
  run_spotdl Runs.downloads_album Runs.track (py "mp3") (py "downloads")
    Runs.waiting =
  (Return Sessions.album_files, Sessions.after_album,
   [SubprocessRun (spotdl_command Runs.track (py "mp3") (py "downloads")) 300]).
Proof. rewrite run_spotdl_eq. reflexivity. Defined.

Lemma failed_run :
  run_spotdl Runs.download_fails Runs.track (py "mp3") (py "downloads")
    Runs.waiting =
  (Return [],
   {| pending_downloads := pending_downloads Runs.waiting;
      fs := {[ py "downloads" := Directory [] [] ]} |},
   [SubprocessRun (spotdl_command Runs.track (py "mp3") (py "downloads")) 300]).
Proof. rewrite run_spotdl_eq. reflexivity. Defined.


(** User 7 downloads; the record of user 8 is still there. *)
Lemma button_handler_keeps_other_users_witness :
  pending_downloads
    (button_handler Runs.downloads_album 7 (py "format_mp3")
       Sessions.both_waiting).1.2 !! 8
  = Some {| url := Sessions.album_link |}.
Proof.
  pose proof (button_handler_keeps_other_users Runs.downloads_album 7
                (py "format_mp3") Sessions.both_waiting 8) as Hkept.
  cbv zeta in Hkept. destruct Hkept as [-> _]; [lia | reflexivity].
Defined.

(** The process of the album run is the downloader on the pending track. *)
Lemma button_handler_spawns_only_spotdl_witness :
  ∃ selected record,
    py "format_mp3" = py "format_" ++ selected ∧
    selected ∈ SUPPORTED_FORMATS ∧
    pending_downloads Runs.waiting !! 7 = Some record ∧
    spotdl_command Runs.track (py "mp3") (py "downloads") =
      spotdl_command (url record) selected (py "downloads") ∧
    300 = 300.
Proof.
  apply (button_handler_spawns_only_spotdl Runs.downloads_album 7
           (py "format_mp3") Runs.waiting).
  vm_compute. apply list_elem_of_further, list_elem_of_further.
  apply list_elem_of_here.
Defined.

(** No [spotdl] on the path: the [FileNotFoundError] of the handler is
    the one of [run_spotdl]. *)
Lemma button_handler_raises_only_from_outside_witness :
  (∃ request,
     request ∈ (button_handler Failures.spotdl_missing 7 (py "format_mp3")
                  Runs.waiting).2 ∧
     answer_to Failures.spotdl_missing request = Some FileNotFoundError) ∨
  (∃ selected record,
     py "format_mp3" = py "format_" ++ selected ∧
     selected ∈ SUPPORTED_FORMATS ∧
     pending_downloads Runs.waiting !! 7 = Some record ∧
     (run_spotdl Failures.spotdl_missing (url record) selected
        (py "downloads") Runs.waiting).1.1 = Raise FileNotFoundError).
Proof.
  apply (button_handler_raises_only_from_outside Failures.spotdl_missing 7
           (py "format_mp3") Runs.waiting).
  reflexivity.
Defined.

(** The Help button. *)
Lemma start_keyboard_is_handled_witness :
  ∃ text parse_mode,
    button_handler Runs.download_fails 7 (py "help") Runs.waiting =
    (edit_result (edit_message_text Runs.download_fails text parse_mode),
     Runs.waiting,
     [Answer None None; EditMessageText text parse_mode]).
Proof.
  apply (start_keyboard_is_handled Runs.download_fails 7 Runs.waiting
           {| button_text := py "Help"; callback_data := py "help" |}).
  apply list_elem_of_here.
Defined.

(** The FLAC button after an album link. *)
Lemma offered_button_starts_download_witness :
  ∃ selected,
    selected ∈ SUPPORTED_FORMATS ∧
    py "format_flac" = py "format_" ++ selected ∧
    py "FLAC" = upper selected ∧
    (edit_accepted Runs.downloads_album (downloading_text selected) Markdown →
     SubprocessRun
       (spotdl_command (strip Sessions.album_link) selected (py "downloads"))
       300
     ∈ (button_handler Runs.downloads_album 8 (py "format_flac")
          (handle_message 8 Sessions.album_link Sessions.fresh).1.2).2).
Proof.
  apply (offered_button_starts_download Runs.downloads_album 8
           Sessions.album_link Sessions.fresh
           {| button_text := py "FLAC"; callback_data := py "format_flac" |}).
  - apply is_spotify_url_spec. reflexivity.
  - apply list_elem_of_further, list_elem_of_further, list_elem_of_here.
Defined.

(** After the failed download of user 7, a second press. *)
Lemma pending_download_is_consumed_once_witness :
  (button_handler Runs.downloads_album 7 (py "format_" ++ py "flac")
     (button_handler Runs.download_fails 7 (py "format_" ++ py "mp3")
        Runs.waiting).1.2).2
  = [Answer None None; EditMessageText no_pending_text None].
Proof.
  pose proof (pending_download_is_consumed_once Runs.download_fails
                Runs.downloads_album 7 (py "mp3") (py "flac")
                {| url := Runs.track |} Runs.waiting _ _ _
                eq_refl (list_elem_of_here _ _) eq_refl failed_run) as Honce.
  cbv zeta in Honce. rewrite Honce.
  - reflexivity.
  - intros _. reflexivity.
Defined.

(** User 8 has sent nothing. *)
Lemma format_selection_needs_pending_download_witness :
  button_handler Runs.downloads_album 8 (py "format_mp3") Runs.waiting =
  (Return tt, Runs.waiting,
   [Answer None None; EditMessageText no_pending_text None]).
Proof.
  apply (format_selection_needs_pending_download Runs.downloads_album 8
           (py "format_mp3") Runs.waiting); reflexivity.
Defined.

(** The first file of the album run. *)
Lemma run_spotdl_paths_have_extension_witness :
  has_extension (py "mp3") (py "downloads/Artist/One.mp3").
Proof.
  apply (run_spotdl_paths_have_extension _ _ _ _ _ _ _ _ _ album_run).
  apply list_elem_of_here.
Defined.

Lemma run_spotdl_paths_under_download_dir_witness :
  ∃ back, py "downloads/Artist/One.mp3" = py "downloads" ++ back.
Proof.
  apply (run_spotdl_paths_under_download_dir _ _ _ _ _ _ _ _ Runs.album _
           album_run).
  - reflexivity.
  - reflexivity.
  - apply list_elem_of_here.
Defined.

(** Two blanks before the link and a line feed after it. *)
Lemma handle_message_ignores_outer_whitespace_witness :
  handle_message 7 ([32; 32]%N ++ Sessions.album_link ++ [10]%N) Runs.waiting
  = handle_message 7 Sessions.album_link Runs.waiting.
Proof.
  apply handle_message_ignores_outer_whitespace.
  - repeat constructor.
  - repeat constructor.
Defined.

Lemma run_polling_keeps_urls_valid_witness :
  pending_urls_valid (run_polling Sessions.evening Sessions.fresh).1.
Proof. apply run_polling_keeps_urls_valid. reflexivity. Defined.

(** The one process of the evening. *)
Lemma run_polling_spawns_only_spotdl_witness :
  ∃ link selected,
    is_spotify_url link ∧ strip link = link ∧
    selected ∈ SUPPORTED_FORMATS ∧
    spotdl_command Runs.track (py "mp3") (py "downloads") =
      spotdl_command link selected (py "downloads") ∧
    300 = 300.
Proof.
  apply (run_polling_spawns_only_spotdl Sessions.evening Sessions.fresh).
  - reflexivity.
  - vm_compute. do 6 apply list_elem_of_further. apply list_elem_of_here.
Defined.

(** User 8 submits and presses twice; user 7 still waits. *)
Lemma run_polling_isolates_users_witness :
  pending_downloads (run_polling Sessions.only_eight Runs.waiting).1 !! 7
  = Some {| url := Runs.track |}.
Proof.
  rewrite (run_polling_isolates_users Sessions.only_eight Runs.waiting 7).
  - reflexivity.
  - repeat constructor; discriminate.
Defined.

(** The album run with everything accepted. *)
Lemma accepted_upload_ends_selection_witness :
  ∃ sent,
    is_upload sent = true ∧
    button_handler Runs.downloads_album 7 (py "format_" ++ py "mp3")
      Runs.waiting =
    (Return tt, cleaned 7 Sessions.after_album,
     Answer None None ::
     EditMessageText (downloading_text (py "mp3")) Markdown ::
     [SubprocessRun (spotdl_command Runs.track (py "mp3") (py "downloads"))
        300] ++ [sent]).
Proof.
  apply (accepted_upload_ends_selection Runs.downloads_album 7 (py "mp3")
           {| url := Runs.track |} Runs.waiting Sessions.album_files
           Sessions.after_album _ eq_refl (list_elem_of_here _ _) eq_refl
           album_run).
  - discriminate.
  - by intros [].
Defined.

(** The failed run, its notice accepted. *)
Lemma empty_download_is_reported_witness :
  ∃ r st',
    button_handler Runs.download_fails 7 (py "format_" ++ py "mp3")
      Runs.waiting =
    (r, st',
     Answer None None ::
     EditMessageText (downloading_text (py "mp3")) Markdown ::
     [SubprocessRun (spotdl_command Runs.track (py "mp3") (py "downloads"))
        300] ++ [EditMessageText download_failed_text None]) ∧
    r = Return tt.
Proof.
  destruct (empty_download_is_reported Runs.download_fails 7 (py "mp3")
              {| url := Runs.track |} Runs.waiting _ _
              eq_refl (list_elem_of_here _ _) eq_refl failed_run)
    as (r & st' & Hrun & Hend).
  exists r, st'. split; [exact Hrun|]. by apply Hend.
Defined.

(** No [spotdl] on the path: user 7 stays pending. *)
Lemma raising_download_leaves_record_pending_witness :
  (button_handler Failures.spotdl_missing 7 (py "format_" ++ py "mp3")
     Runs.waiting).1.1 = Raise FileNotFoundError ∧
  pending_downloads
    (button_handler Failures.spotdl_missing 7 (py "format_" ++ py "mp3")
       Runs.waiting).1.2 !! 7 = Some {| url := Runs.track |}.
Proof.
  assert (run_spotdl Failures.spotdl_missing Runs.track (py "mp3")
            (py "downloads") Runs.waiting =
          (Raise FileNotFoundError,
           {| pending_downloads := pending_downloads Runs.waiting;
              fs := {[ py "downloads" := Directory [] [] ]} |},
           [SubprocessRun
              (spotdl_command Runs.track (py "mp3") (py "downloads")) 300]))
    as Hrun by (rewrite run_spotdl_eq; reflexivity).
  destruct (raising_download_leaves_record_pending Failures.spotdl_missing 7
              (py "mp3") {| url := Runs.track |} Runs.waiting _ _ _
              eq_refl (list_elem_of_here _ _) eq_refl Hrun)
    as [Hhandler Hpending].
  rewrite Hhandler. split; [reflexivity | exact Hpending].
Defined.
